(** * Billing scanner (eodhp-data-transfer-events): a shallow embedding

    This development embeds the billing scanner of [src/billing_scanner]:
    the log-line parser and per-file aggregation of [scanner.py], the egress
    classifier of [subnettree.py], the scan state of [state.py], the download
    helper of [s3_utils.py] and the run loop of [BillingScanner.run].

    Python exceptions are modelled by the result type [pyres]; the collaborators
    the code calls but does not define (the object store, the message
    producer, [uuid.uuid5], [datetime.fromisoformat], the JSON decoder and the
    address parser of [SubnetTree]) are arguments of the definitions, so that
    every theorem holds for every behaviour of them unless it says otherwise. *)

From Stdlib Require Import String Ascii ZArith List Bool Lia.
From Stdlib Require OrderedTypeEx.
Set Warnings "-register-all".
Import ListNotations.
Open Scope Z_scope.
Open Scope list_scope.

Infix "+++" := String.append (at level 60, right associativity).

(** ** Python runtime: exceptions, strings, JSON values *)

Module Py.

(** The exceptions raised on the paths modelled here. *)
Inductive exn :=
| ValueError | IndexError | AttributeError | TypeError | KeyError
| OSError | PublishError | OverflowError
| Exception (** a bare [raise Exception(...)] *).

(** A Python computation: a value, or an exception propagating. *)
Inductive pyres (A : Type) : Type :=
| Ok (a : A)
| Raise (e : exn).
Arguments Ok {A} a.
Arguments Raise {A} e.

Definition bind {A B} (m : pyres A) (f : A -> pyres B) : pyres B :=
  match m with
  | Ok a => f a
  | Raise e => Raise e
  end.

Notation "x <- m ;; k" := (bind m (fun x => k))
  (at level 61, m at next level, right associativity).

Definition of_option {A} (e : exn) (o : option A) : pyres A :=
  match o with Some a => Ok a | None => Raise e end.

(** Character classes.  [str.isspace] on the ASCII range: tab, line feed,
    vertical tab, form feed, carriage return, the separators 0x1c-0x1f and
    space. *)
Definition code (c : ascii) : nat := nat_of_ascii c.

Definition is_space (c : ascii) : bool :=
  let n := code c in
  (((9 <=? n) && (n <=? 13)) || ((28 <=? n) && (n <=? 32)))%nat.

(** Line boundaries of [str.splitlines] on the ASCII range. *)
Definition is_linebreak (c : ascii) : bool :=
  let n := code c in
  ((10 <=? n) && (n <=? 13))%nat || ((28 <=? n) && (n <=? 30))%nat.

Definition is_digit (c : ascii) : bool :=
  let n := code c in ((48 <=? n) && (n <=? 57))%nat.

Definition digit_value (c : ascii) : Z := Z.of_nat (code c - 48).

Definition TAB : ascii := ascii_of_nat 9.
Definition CR : ascii := ascii_of_nat 13.
Definition LF : ascii := ascii_of_nat 10.

(** [str.strip()]: leading and trailing whitespace removed. *)
Fixpoint lstrip_l (l : list ascii) : list ascii :=
  match l with
  | c :: t => if is_space c then lstrip_l t else l
  | [] => []
  end.

Definition strip (s : string) : string :=
  string_of_list_ascii
    (rev (lstrip_l (rev (lstrip_l (list_ascii_of_string s))))).

(** [str.startswith] and [str.endswith]. *)
Definition startswith (p s : string) : bool := String.prefix p s.

Definition endswith (suf s : string) : bool :=
  let n := String.length s in
  let m := String.length suf in
  ((m <=? n)%nat && String.eqb (substring (n - m) m s) suf)%bool.

(** [s.split(c)] for a one-character separator: never empty, and empty
    pieces are kept. *)
Fixpoint split_on (c : ascii) (s : string) : list string :=
  match s with
  | EmptyString => [""%string]
  | String a s' =>
      let rest := split_on c s' in
      if Ascii.eqb a c then ""%string :: rest
      else match rest with
           | h :: t => String a h :: t
           | [] => [String a EmptyString]
           end
  end.

(** [str.splitlines()]: "\r\n" is one boundary, and no empty last line is
    produced by a trailing boundary. *)
Fixpoint splitlines_l (cur : list ascii) (l : list ascii) : list (list ascii) :=
  match l with
  | [] => match cur with [] => [] | _ => [rev cur] end
  | a :: t =>
      if Ascii.eqb a CR then
        match t with
        | b :: t' => if Ascii.eqb b LF then rev cur :: splitlines_l [] t'
                     else rev cur :: splitlines_l [] t
        | [] => [rev cur]
        end
      else if is_linebreak a then rev cur :: splitlines_l [] t
      else splitlines_l (a :: cur) t
  end.

Definition splitlines (s : string) : list string :=
  map string_of_list_ascii (splitlines_l [] (list_ascii_of_string s)).

(** [str.replace("Z", "")]. *)
Fixpoint remove_char (c : ascii) (s : string) : string :=
  match s with
  | EmptyString => EmptyString
  | String a s' => if Ascii.eqb a c then remove_char c s' else String a (remove_char c s')
  end.

(** [int(s)] in base 10: surrounding whitespace, an optional sign, then
    digits with single underscores allowed between digits; more than 4300
    digits exceed the default conversion limit and raise ValueError. *)
Fixpoint digits_us (l : list ascii) (acc : Z) (prev_digit : bool) : option Z :=
  match l with
  | [] => if prev_digit then Some acc else None
  | c :: t =>
      if is_digit c then digits_us t (acc * 10 + digit_value c) true
      else if Ascii.eqb c "_"%char && prev_digit then digits_us t acc false
      else None
  end.

Definition py_int (s : string) : option Z :=
  let l := list_ascii_of_string (strip s) in
  if (4300 <? List.length (filter is_digit l))%nat then None
  else
    match l with
    | "+"%char :: t => digits_us t 0 false
    | "-"%char :: t => option_map Z.opp (digits_us t 0 false)
    | t => digits_us t 0 false
    end.

(** [float(n)] for an int [n]: the nearest double, ties to even, kept as
    the integer it equals; an int whose nearest double reaches 2^1024 in
    magnitude raises OverflowError. *)
Definition round_double (n : Z) : Z :=
  let m := Z.abs n in
  if m <? 2 ^ 53 then n
  else
    let e := Z.log2 m - 52 in
    let q := Z.shiftr m e in
    let rem := m - Z.shiftl q e in
    let half := 2 ^ (e - 1) in
    let q' := if (half <? rem) || ((rem =? half) && Z.odd q) then q + 1 else q in
    Z.sgn n * Z.shiftl q' e.

Definition py_float (n : Z) : pyres Z :=
  let r := round_double n in
  if 2 ^ 1024 <=? Z.abs r then Raise OverflowError else Ok r.

(** JSON documents as [json.load] returns them (numbers are integers here). *)
Inductive json :=
| JNull
| JBool (b : bool)
| JNum (n : Z)
| JStr (s : string)
| JArr (l : list json)
| JObj (fields : list (string * json)).

(** [d.get(k)] on the dict decoded from an object: the last binding wins. *)
Definition dict_get (k : string) (fields : list (string * json)) : option json :=
  match find (fun kv => String.eqb (fst kv) k) (rev fields) with
  | Some (_, v) => Some v
  | None => None
  end.

Definition dict_get_default (k : string) (d : json) (fields : list (string * json)) : json :=
  match dict_get k fields with Some v => v | None => d end.

(** The distinct keys of a decoded object, in first-occurrence order. *)
Fixpoint dedup_keys (seen : list string) (fields : list (string * json)) : list string :=
  match fields with
  | [] => []
  | (k, _) :: t =>
      if existsb (String.eqb k) seen then dedup_keys seen t
      else k :: dedup_keys (k :: seen) t
  end.

(** Truth value of a JSON value as a Python object. *)
Definition truthy (j : json) : bool :=
  match j with
  | JNull => false
  | JBool b => b
  | JNum n => negb (Z.eqb n 0)
  | JStr s => negb (String.eqb s "")
  | JArr l => negb (match l with [] => true | _ => false end)
  | JObj f => negb (match f with [] => true | _ => false end)
  end.

(** [for x in v]: lists, strings (their characters) and dicts (their keys)
    are iterable; anything else raises TypeError. *)
Definition py_iter (j : json) : pyres (list json) :=
  match j with
  | JArr l => Ok l
  | JStr s => Ok (map (fun c => JStr (String c EmptyString)) (list_ascii_of_string s))
  | JObj f => Ok (map JStr (dedup_keys [] f))
  | _ => Raise TypeError
  end.

End Py.
Import Py.

(** ** [subnettree.py]: the egress tiers *)

Inductive EgressSKU := REGION | INTERREGION | INTERNET.

Definition sku_value (s : EgressSKU) : string :=
  match s with
  | REGION => "EGRESS-REGION"
  | INTERREGION => "EGRESS-INTERREGION"
  | INTERNET => "EGRESS-INTERNET"
  end.

(** ** [subnettree.py]: the classifier *)

Module Classifier.

(** A [SubnetTree] stores IPv4 addresses as IPv4-mapped IPv6 addresses:
    an address is a 128-bit number, a prefix a network and a length. *)
Definition addr := Z.

Record cidr := { net : Z; plen : Z }.

(** Containment of an address in a prefix: the leading [plen] bits agree. *)
Definition cidr_match (c : cidr) (a : addr) : bool :=
  Z.shiftr a (128 - plen c) =? Z.shiftr (net c) (128 - plen c).

Definition tree := list cidr.

Definition region_is (region : json) (current_region : string) : bool :=
  match region with JStr r => String.eqb r current_region | _ => false end.

Section Trees.
(** The prefix and address parsers of [SubnetTree]. *)
Variable parse_prefix : string -> option cidr.
Variable parse_addr : string -> option addr.

(** [tree[cidr] = value]: a key that is not a string, or not a prefix, is
    refused. *)
Definition tree_insert (t : tree) (c : json) : pyres tree :=
  match c with
  | JStr s => p <- of_option ValueError (parse_prefix s);; Ok (t ++ [p])
  | _ => Raise TypeError
  end.

(** One of the two blocks of the loop body of [build_trees] (IPv4, then
    IPv6): a truthy prefix goes into the tree of its partition. *)
Definition add_prefix (trees : tree * tree) (same : bool) (cidr : json) : pyres (tree * tree) :=
  if truthy cidr then
    if same then (c <- tree_insert (fst trees) cidr;; Ok (c, snd trees))
    else (a <- tree_insert (snd trees) cidr;; Ok (fst trees, a))
  else Ok trees.

(** One iteration of the loop of [build_trees]. *)
Definition build_step (trees : tree * tree) (prefix : json) (current_region : string)
  : pyres (tree * tree) :=
  match prefix with
  | JObj fields =>
      let region := dict_get_default "region" (JStr "") fields in
      let same := region_is region current_region in
      t1 <- add_prefix trees same (dict_get_default "ip_prefix" JNull fields);;
      add_prefix t1 same (dict_get_default "ipv6_prefix" JNull fields)
  | _ => Raise AttributeError
  end.

Fixpoint build_loop (entries : list json) (current_region : string) (trees : tree * tree)
  : pyres (tree * tree) :=
  match entries with
  | [] => Ok trees
  | p :: rest => t <- build_step trees p current_region;; build_loop rest current_region t
  end.

(** [AWSIPClassifier.build_trees]: same-region prefixes in the first tree,
    all other prefixes in the second. *)
Definition build_trees (ip_data : json) (current_region : string) : pyres (tree * tree) :=
  prefixes <- (match ip_data with
               | JObj f => Ok (dict_get_default "prefixes" (JArr []) f)
               | _ => Raise AttributeError
               end);;
  entries <- py_iter prefixes;;
  build_loop entries current_region ([], []).

(** [client_ip in tree]. *)
Definition tree_contains (t : tree) (client_ip : string) : pyres bool :=
  a <- of_option ValueError (parse_addr client_ip);;
  Ok (existsb (fun c => cidr_match c a) t).

(** [AWSIPClassifier.classify]. *)
Definition classify (trees : tree * tree) (client_ip : string) : pyres EgressSKU :=
  in_current <- tree_contains (fst trees) client_ip;;
  if in_current then Ok REGION
  else
    in_aws <- tree_contains (snd trees) client_ip;;
    if in_aws then Ok INTERREGION else Ok INTERNET.

(** [AWSIPClassifier.__init__]: [fetch_live] is the remote request with its
    status check and JSON decoding, [load_file] the read of the fallback
    file; the classifier keeps the two trees. *)
Definition classifier_init (fetch_live : pyres json) (fallback_file : option string)
  (load_file : string -> pyres json) (current_region : string) : pyres (tree * tree) :=
  ip_data <- (match fetch_live with
              | Ok d => Ok d
              | Raise _ =>
                  match fallback_file with
                  | Some ff =>
                      if String.eqb ff "" then Raise Exception
                      else match load_file ff with
                           | Ok d => Ok d
                           | Raise _ => Raise Exception
                           end
                  | None => Raise Exception
                  end
              end);;
  build_trees ip_data current_region.

(** [BillingScanner.__init__] around the classifier: logged and re-raised. *)
Definition scanner_init_classifier fetch_live fallback_file load_file current_region
  : pyres (tree * tree) :=
  match classifier_init fetch_live fallback_file load_file current_region with
  | Ok t => Ok t
  | Raise e => Raise e
  end.

End Trees.
End Classifier.

(** ** [scanner.py]: parsing one log line *)

Module Scanner.

(** The dict built by [process_log_line]. *)
Record event_data := {
  ev_uuid : string;
  ev_workspace : string;
  ev_sku : string;
  ev_data_size : Z;
  ev_timestamp : string;
  ev_aggregation_key : string
}.

Definition expected_domain : string := "eodatahub-workspaces.org.uk".

(** [fields[i]], raising IndexError past the end. *)
Definition field (fields : list string) (i : nat) : pyres string :=
  of_option IndexError (nth_error fields i).

(** The host-header workspace: [parts[0]] of the host split on dots, when the
    host ends with [expected_domain] and that first part is non-empty. *)
Definition workspace_of_host (x_host_header : string) : option string :=
  if endswith expected_domain x_host_header then
    match split_on "."%char x_host_header with
    | p :: _ => if String.eqb p "" then None else Some p
    | [] => None
    end
  else None.

Definition x_host_header_of (fields : list string) : string :=
  if (17 <? List.length fields)%nat then nth 17 fields ""%string else ""%string.

Section ProcessLogLine.
(** [self.aws_classifier.classify], which may raise. *)
Variable classify : string -> pyres EgressSKU.
(** [str(uuid.uuid5(uuid.NAMESPACE_DNS, name))]. *)
Variable uuid5 : string -> string.

(** The body of the [try] block of [process_log_line]. *)
Definition process_log_line_body (fields : list string) (log_filename : string)
  : pyres (option event_data) :=
  date <- field fields 2;;
  time_str <- field fields 3;;
  raw_bytes <- field fields 5;;
  sc_bytes <- of_option ValueError (py_int raw_bytes);;
  client_ip <- field fields 6;;
  match workspace_of_host (x_host_header_of fields) with
  | None => Ok None
  | Some workspace =>
      sku_enum <- classify client_ip;;
      let sku := sku_value sku_enum in
      let aggregation_key := log_filename +++ "-" +++ workspace +++ "-" +++ sku in
      let event_uuid := uuid5 aggregation_key in
      let timestamp_iso := date +++ "T" +++ time_str +++ "Z" in
      Ok (Some {| ev_uuid := event_uuid; ev_workspace := workspace; ev_sku := sku;
                  ev_data_size := sc_bytes; ev_timestamp := timestamp_iso;
                  ev_aggregation_key := aggregation_key |})
  end.

(** [BillingScanner.process_log_line]: blank and comment lines give None;
    every exception of the body is caught and gives None. *)
Definition process_log_line (line log_filename : string) : pyres (option event_data) :=
  if String.eqb (strip line) "" || startswith "#" line then Ok None
  else
    match process_log_line_body (split_on TAB line) log_filename with
    | Ok r => Ok r
    | Raise _ => Ok None
    end.

End ProcessLogLine.

(** ** Timestamps: [datetime] values and their comparison *)

(** A [datetime] as [fromisoformat] builds it; [dt_tz] is the UTC offset in
    minutes of an aware value, None for a naive one. *)
Record datetime := {
  dt_year : Z; dt_month : Z; dt_day : Z;
  dt_hour : Z; dt_minute : Z; dt_second : Z; dt_micro : Z;
  dt_tz : option Z
}.

(** Days since 1970-01-01 of a proleptic Gregorian date. *)
Definition days_from_civil (y m d : Z) : Z :=
  let y' := if m <=? 2 then y - 1 else y in
  let era := Z.div y' 400 in
  let yoe := y' - era * 400 in
  let mp := if m >? 2 then m - 3 else m + 9 in
  let doy := (153 * mp + 2) / 5 + d - 1 in
  let doe := yoe * 365 + yoe / 4 - yoe / 100 + doy in
  era * 146097 + doe - 719468.

(** The sort key under which Python orders datetimes: field by field for
    naive values, by the UTC instant for aware ones. *)
Definition dt_key (d : datetime) : list Z :=
  match dt_tz d with
  | None => [dt_year d; dt_month d; dt_day d; dt_hour d; dt_minute d; dt_second d; dt_micro d]
  | Some off =>
      [days_from_civil (dt_year d) (dt_month d) (dt_day d) * 86400
         + dt_hour d * 3600 + dt_minute d * 60 + dt_second d - off * 60;
       dt_micro d]
  end.

Fixpoint lex_ltb (a b : list Z) : bool :=
  match a, b with
  | [], [] => false
  | [], _ :: _ => true
  | _ :: _, [] => false
  | x :: xs, y :: ys => (x <? y) || ((x =? y) && lex_ltb xs ys)
  end.

(** [a < b] on datetimes: comparing a naive with an aware value raises
    TypeError. *)
Definition dt_lt (a b : datetime) : pyres bool :=
  match dt_tz a, dt_tz b with
  | None, None | Some _, Some _ => Ok (lex_ltb (dt_key a) (dt_key b))
  | _, _ => Raise TypeError
  end.

Definition dt_le (a b : datetime) : Prop := lex_ltb (dt_key b) (dt_key a) = false.

(** Zero-padded decimal rendering. *)
Fixpoint digits_rev (fuel : nat) (n : Z) : list ascii :=
  match fuel with
  | O => []
  | S f => if n <? 10 then [ascii_of_nat (48 + Z.to_nat n)]
           else ascii_of_nat (48 + Z.to_nat (n mod 10)) :: digits_rev f (n / 10)
  end.

Definition pad (w : nat) (n : Z) : string :=
  let ds := rev (digits_rev 40 (Z.abs n)) in
  string_of_list_ascii (repeat "0"%char (w - List.length ds) ++ ds).

(** [datetime.isoformat()]. *)
Definition isoformat (d : datetime) : string :=
  pad 4 (dt_year d) +++ "-" +++ pad 2 (dt_month d) +++ "-" +++ pad 2 (dt_day d)
  +++ "T" +++ pad 2 (dt_hour d) +++ ":" +++ pad 2 (dt_minute d) +++ ":" +++ pad 2 (dt_second d)
  +++ (if dt_micro d =? 0 then "" else "." +++ pad 6 (dt_micro d))
  +++ match dt_tz d with
      | None => ""
      | Some off => (if off <? 0 then "-" else "+") +++ pad 2 (Z.abs off / 60)
                    +++ ":" +++ pad 2 (Z.abs off mod 60)
      end.

(** ** [process_log_file]: aggregation and emission *)

(** One value of the [defaultdict] [aggregation]. *)
Record group := {
  g_data_size : Z;
  g_earliest : option datetime;
  g_latest : option datetime;
  g_workspace : option string;
  g_sku : option string
}.

Definition empty_group : group :=
  {| g_data_size := 0; g_earliest := None; g_latest := None;
     g_workspace := None; g_sku := None |}.

(** A dict as an association list in insertion order. *)
Definition agg := list (string * group).

Fixpoint agg_lookup (k : string) (a : agg) : option group :=
  match a with
  | [] => None
  | (k', g) :: t => if String.eqb k' k then Some g else agg_lookup k t
  end.

(** [a[k] = g]: an existing key keeps its place, a new one goes last. *)
Fixpoint agg_set (k : string) (g : group) (a : agg) : agg :=
  match a with
  | [] => [(k, g)]
  | (k', g') :: t => if String.eqb k' k then (k', g) :: t else (k', g') :: agg_set k g t
  end.

(** The [BillingEvent] sent for a group; [quantity] is [float(data_size)],
    a double kept as the integer it equals. *)
Record billing_event := {
  be_uuid : string;
  be_event_start : string;
  be_event_end : string;
  be_sku : option string;
  be_workspace : option string;
  be_quantity : Z
}.

(** The collaborators of one run of the scanner. *)
Record collab := {
  s3_get_object : string -> pyres string;     (** [get_object(...)["Body"].read()] *)
  gzip_decompress : string -> pyres string;
  utf8_decode : string -> pyres string;
  classify : string -> pyres EgressSKU;        (** [self.aws_classifier.classify] *)
  fromisoformat : string -> pyres datetime;    (** [datetime.fromisoformat] *)
  uuid5 : string -> string;                    (** [str(uuid.uuid5(NAMESPACE_DNS, _))] *)
  send : billing_event -> pyres unit           (** [self.producer.send] *)
}.

(** [s3_utils.download_file]: every exception is logged and re-raised. *)
Definition download_file (env : collab) (key : string) : pyres string :=
  match
    (body <- s3_get_object env key;;
     if endswith ".gz" key then
       (b <- gzip_decompress env body;; utf8_decode env b)
     else utf8_decode env body)
  with
  | Ok body => Ok body
  | Raise e => Raise e
  end.

Section Aggregate.
Variable env : collab.

(** The loop body of [process_log_file] for one record. *)
Definition add_record (a : agg) (ev : event_data) : pyres agg :=
  let group_key := ev_aggregation_key ev in
  let g := match agg_lookup group_key a with Some g => g | None => empty_group end in
  let data_size := g_data_size g + ev_data_size ev in
  ts <- fromisoformat env (remove_char "Z"%char (ev_timestamp ev));;
  earliest <- (match g_earliest g with
               | None => Ok ts
               | Some e => b <- dt_lt ts e;; Ok (if b then ts else e)
               end);;
  latest <- (match g_latest g with
             | None => Ok ts
             | Some l => b <- dt_lt l ts;; Ok (if b then ts else l)
             end);;
  Ok (agg_set group_key
        {| g_data_size := data_size; g_earliest := Some earliest;
           g_latest := Some latest; g_workspace := Some (ev_workspace ev);
           g_sku := Some (ev_sku ev) |} a).

(** [for line in content.splitlines(): ...]. *)
Fixpoint aggregate_lines (key : string) (lines : list string) (a : agg) : pyres agg :=
  match lines with
  | [] => Ok a
  | line :: rest =>
      r <- process_log_line (classify env) (uuid5 env) line key;;
      match r with
      | None => aggregate_lines key rest a
      | Some ev => a' <- add_record a ev;; aggregate_lines key rest a'
      end
  end.

(** The records [process_log_line] yields for the lines (when none raises). *)
Fixpoint records (key : string) (lines : list string) : list event_data :=
  match lines with
  | [] => []
  | line :: rest =>
      match process_log_line (classify env) (uuid5 env) line key with
      | Ok (Some ev) => ev :: records key rest
      | _ => records key rest
      end
  end.

(** The event built for one group. *)
Definition make_event (group_key : string) (g : group) : pyres billing_event :=
  e <- of_option AttributeError (g_earliest g);;
  l <- of_option AttributeError (g_latest g);;
  quantity <- py_float (g_data_size g);;
  Ok {| be_uuid := uuid5 env group_key;
        be_event_start := isoformat e +++ "Z";
        be_event_end := isoformat l +++ "Z";
        be_sku := g_sku g; be_workspace := g_workspace g;
        be_quantity := quantity |}.

(** The emission loop: the outcome, and the events the producer accepted. *)
Fixpoint emit_groups (a : agg) : pyres bool * list billing_event :=
  match a with
  | [] => (Ok true, [])
  | (group_key, g) :: rest =>
      match make_event group_key g with
      | Raise e => (Raise e, [])
      | Ok be =>
          match send env be with
          | Raise _ => (Ok false, [])
          | Ok _ => let (r, sent) := emit_groups rest in (r, be :: sent)
          end
      end
  end.

(** [BillingScanner.process_log_file]. *)
Definition process_log_file (key : string) : pyres bool * list billing_event :=
  match download_file env key with
  | Raise e => (Raise e, [])
  | Ok content =>
      if String.eqb content "" then (Ok false, [])
      else
        match aggregate_lines key (splitlines content) [] with
        | Raise e => (Raise e, [])
        | Ok a => emit_groups a
        end
  end.

End Aggregate.

End Scanner.

(** ** [state.py]: the scan state *)

Module State.

(** The persisted state file: absent, or present with its text decoded by
    [json.load] (None when the text is not valid JSON). *)
Inductive state_file :=
| SMissing
| SText (parsed : option json).

(** Python [==] between the hashable JSON values (booleans are integers). *)
Definition py_eq (a b : json) : bool :=
  match a, b with
  | JStr x, JStr y => String.eqb x y
  | JNum x, JNum y => Z.eqb x y
  | JBool x, JBool y => Bool.eqb x y
  | JNum x, JBool y | JBool y, JNum x => Z.eqb x (if y then 1 else 0)
  | JNull, JNull => true
  | _, _ => false
  end.

Definition hashable (j : json) : bool :=
  match j with JArr _ | JObj _ => false | _ => true end.

(** A Python set as the list of its elements in insertion order. *)
Definition set_add (x : json) (s : list json) : list json :=
  if existsb (py_eq x) s then s else s ++ [x].

(** [set(iterable)]: an unhashable element raises TypeError. *)
Definition py_set (l : list json) : pyres (list json) :=
  if forallb hashable l then Ok (fold_left (fun s x => set_add x s) l []) else Raise TypeError.

(** [ScannerState.__enter__]: a missing file is created holding
    [{"processed": []}]; only [json.JSONDecodeError] is caught. *)
Definition enter (f : state_file) : pyres (list json) :=
  let parsed := match f with
                | SMissing => Some (JObj [("processed"%string, JArr [])])
                | SText p => p
                end in
  match parsed with
  | None => Ok []
  | Some (JObj fs) => l <- py_iter (dict_get_default "processed" (JArr []) fs);; py_set l
  | Some _ => Raise AttributeError
  end.

(** [already_scanned] and [mark_scanned]. *)
Definition already_scanned (file_key : string) (processed : list json) : bool :=
  existsb (py_eq (JStr file_key)) processed.

Definition mark_scanned (file_key : string) (processed : list json) : list json :=
  set_add (JStr file_key) processed.

(** [ScannerState.__exit__]: the file is overwritten with the set. *)
Definition exit_file (processed : list json) : state_file :=
  SText (Some (JObj [("processed"%string, JArr processed)])).

(** The body of a [with ScannerState(...) as state:] block, as a program over
    the state object: it queries [already_scanned], calls [mark_scanned],
    finishes or raises. *)
Inductive body :=
| BDone
| BRaise (e : exn)
| BMark (file_key : string) (next : body)
| BQuery (file_key : string) (next : bool -> body).

Fixpoint exec (b : body) (processed : list json) : pyres unit * list json :=
  match b with
  | BDone => (Ok tt, processed)
  | BRaise e => (Raise e, processed)
  | BMark k next => exec next (mark_scanned k processed)
  | BQuery k next => exec (next (already_scanned k processed)) processed
  end.

(** The keys the body passes to [mark_scanned]. *)
Fixpoint marked (b : body) (processed : list json) : list string :=
  match b with
  | BDone | BRaise _ => []
  | BMark k next => k :: marked next (mark_scanned k processed)
  | BQuery k next => marked (next (already_scanned k processed)) processed
  end.

(** The [with] statement: [__exit__] runs whether the body finishes or
    raises, and the body's outcome is then propagated.  When [__enter__]
    raises, the file keeps its content (a missing file has been created). *)
Definition with_state (f : state_file) (b : body) : pyres unit * state_file :=
  match enter f with
  | Raise e => (Raise e, match f with SMissing => exit_file [] | _ => f end)
  | Ok processed =>
      let (r, final) := exec b processed in (r, exit_file final)
  end.

End State.

(** ** [scanner.py]: listing and the run *)

Module Pipeline.
Import Scanner State.

(** The configuration read by the listing. *)
Record config := { LOG_FOLDER : string; DISTRIBUTION_ID : string }.

(** Python [<] between JSON values: strings by code point (UTF-8 byte order
    is code-point order), numbers and booleans numerically, otherwise
    TypeError. *)
Definition py_lt (a b : json) : pyres bool :=
  match a, b with
  | JStr x, JStr y => Ok (String.ltb x y)
  | JNum x, JNum y => Ok (x <? y)
  | JNum x, JBool y => Ok (x <? if y then 1 else 0)
  | JBool x, JNum y => Ok ((if x then 1 else 0) <? y)
  | JBool x, JBool y => Ok (negb x && y)
  | _, _ => Raise TypeError
  end.

(** [max(iterable)]: the first greatest element. *)
Definition py_max (j : json) : pyres json :=
  l <- py_iter j;;
  match l with
  | [] => Raise ValueError
  | x :: t =>
      fold_left (fun acc item => best <- acc;; gt <- py_lt best item;;
                                 Ok (if gt then item else best)) t (Ok x)
  end.

(** [BillingScanner.get_start_after_key]: every exception gives "". *)
Definition get_start_after_key (f : state_file) : json :=
  match f with
  | SMissing | SText None => JStr ""
  | SText (Some (JObj fs)) =>
      let processed_keys := dict_get_default "processed" (JArr []) fs in
      if truthy processed_keys then
        match py_max processed_keys with Ok m => m | Raise _ => JStr "" end
      else JStr ""
  | SText (Some _) => JStr ""
  end.

(** [s3_utils.list_files] over the object store: [bucket] holds the keys in
    the store's (lexicographic) order; a listing returns the keys under the
    prefix, and, when [StartAfter] is passed, only those after it.  A
    [StartAfter] that is not a string is refused by the client. *)
Definition list_files (bucket : list string) (prefix : string) (start_after : json)
  : pyres (list string) :=
  if truthy start_after then
    match start_after with
    | JStr sa => Ok (filter (fun k => String.prefix prefix k && String.ltb sa k) bucket)
    | _ => Raise ValueError
    end
  else Ok (filter (fun k => String.prefix prefix k) bucket).

(** [BillingScanner.list_log_files]. *)
Definition list_log_files (cfg : config) (bucket : list string) (f : state_file)
  : pyres (list string) :=
  let prefix := if String.eqb (DISTRIBUTION_ID cfg) "" then LOG_FOLDER cfg
                else LOG_FOLDER cfg +++ DISTRIBUTION_ID cfg +++ "." in
  list_files bucket prefix (get_start_after_key f).

(** [new_files = [key for key in all_files if not state.already_scanned(key)]]
    followed by the rest of the block, as a body of the [with] statement. *)
Fixpoint filter_new (files : list string) (k : list string -> body) : body :=
  match files with
  | [] => k []
  | f :: t => BQuery f (fun scanned =>
                filter_new t (fun rest => k (if scanned then rest else f :: rest)))
  end.

(** [for key in new_files: if self.process_log_file(key): state.mark_scanned(key)]. *)
Fixpoint process_loop (env : collab) (keys : list string) : body :=
  match keys with
  | [] => BDone
  | key :: rest =>
      match fst (process_log_file env key) with
      | Raise e => BRaise e
      | Ok true => BMark key (process_loop env rest)
      | Ok false => process_loop env rest
      end
  end.

Definition run_body (env : collab) (all_files : list string) : body :=
  filter_new all_files (process_loop env).

(** The events the producer accepted while the loop ran over [keys]. *)
Fixpoint sent_loop (env : collab) (keys : list string) : list billing_event :=
  match keys with
  | [] => []
  | key :: rest =>
      let (r, evs) := process_log_file env key in
      match r with
      | Raise _ => evs
      | Ok _ => evs ++ sent_loop env rest
      end
  end.

Record run_result := {
  outcome : pyres unit;
  state_after : state_file;
  listed : list string;      (** [all_files] *)
  candidates : list string;  (** [new_files] *)
  sent : list billing_event
}.

(** [BillingScanner.run] on the object store [bucket] and the state file [f]. *)
Definition run (cfg : config) (env : collab) (bucket : list string) (f : state_file)
  : run_result :=
  match list_log_files cfg bucket f with
  | Raise e => {| outcome := Raise e; state_after := f; listed := [];
                  candidates := []; sent := [] |}
  | Ok all_files =>
      let new_files := match enter f with
                       | Ok processed =>
                           filter (fun k => negb (already_scanned k processed)) all_files
                       | Raise _ => []
                       end in
      let (r, st) := with_state f (run_body env all_files) in
      {| outcome := r; state_after := st; listed := all_files;
         candidates := new_files;
         sent := match enter f with Ok _ => sent_loop env new_files | Raise _ => [] end |}
  end.

End Pipeline.

(** ** Concrete collaborators for the scenarios of the tests *)

Module Concrete.
Import Scanner.

Definition num_of (l : list ascii) : option Z :=
  if forallb is_digit l then Some (fold_left (fun acc c => acc * 10 + digit_value c) l 0)
  else None.

Definition leap (y : Z) : bool :=
  ((y mod 4 =? 0) && negb (y mod 100 =? 0)) || (y mod 400 =? 0).

Definition days_in_month (y m : Z) : Z :=
  if m =? 2 then (if leap y then 29 else 28)
  else if (m =? 4) || (m =? 6) || (m =? 9) || (m =? 11) then 30 else 31.

(** [datetime.fromisoformat] on the form "YYYY-MM-DDTHH:MM:SS" that the log
    date and time fields give; any other text raises ValueError here. *)
Definition fromisoformat_basic (s : string) : pyres datetime :=
  match list_ascii_of_string s with
  | [y1; y2; y3; y4; d1; m1; m2; d2; a1; a2; t; h1; h2; c1; i1; i2; c2; s1; s2] =>
      if Ascii.eqb d1 "-" && Ascii.eqb d2 "-" && Ascii.eqb t "T"
         && Ascii.eqb c1 ":" && Ascii.eqb c2 ":" then
        match num_of [y1; y2; y3; y4], num_of [m1; m2], num_of [a1; a2],
              num_of [h1; h2], num_of [i1; i2], num_of [s1; s2] with
        | Some y, Some mo, Some d, Some h, Some mi, Some se =>
            if (1 <=? y) && (1 <=? mo) && (mo <=? 12) && (1 <=? d)
               && (d <=? days_in_month y mo) && (h <? 24) && (mi <? 60) && (se <? 60)
            then Ok {| dt_year := y; dt_month := mo; dt_day := d; dt_hour := h;
                       dt_minute := mi; dt_second := se; dt_micro := 0; dt_tz := None |}
            else Raise ValueError
        | _, _, _, _, _, _ => Raise ValueError
        end
      else Raise ValueError
  | _ => Raise ValueError
  end.

Definition tab_join (l : list string) : string := String.concat (String TAB EmptyString) l.
Definition nl : string := String LF EmptyString.

(** A CloudFront log line of the tests, with its time, bytes and host. *)
Definition log_line_host (host time bytes : string) : string :=
  tab_join ["1744033128"; "EYK26O46YS1D0"; "2025-04-07"; time; "LHR3-C2"; bytes;
            "1.1.1.1"; "GET"; "dummy.example.com"; "/notebooks/user/workspace1/api/sessions";
            "200"; "-"; "-"; "-"; "-"; "Miss"; "-"; host]%string.

Definition log_line (time bytes : string) : string :=
  log_line_host "workspace1.eodatahub-workspaces.org.uk" time bytes.

(** The content of [test_process_log_file_aggregation]. *)
Definition two_line_log : string :=
  "#Version: 1.0" +++ nl
  +++ "#Fields:" +++ String TAB EmptyString +++ "timestamp" +++ nl
  +++ log_line "13:38:48" "398" +++ nl
  +++ log_line "13:39:00" "200" +++ nl.

(** The collaborators of the test fixture: the classifier always answers
    REGION, the producer accepts every event, the object store serves
    [get_object]. *)
Definition test_env (get_object : string -> pyres string) (uuid5 : string -> string)
  (send : billing_event -> pyres unit) : collab :=
  {| s3_get_object := get_object;
     gzip_decompress := fun b => Ok b;
     utf8_decode := fun b => Ok b;
     classify := fun _ => Ok REGION;
     fromisoformat := fromisoformat_basic;
     uuid5 := uuid5;
     send := send |}.

Definition tag_uuid (name : string) : string := "uuid5:" +++ name.

Definition accept_all (_ : billing_event) : pyres unit := Ok tt.

(** Two log files of one line each in the bucket. *)
Definition bucket_ab : list string := ["a.log"; "b.log"]%string.

Definition store_ab (key : string) : pyres string :=
  Ok (log_line (if String.eqb key "a.log" then "10:00:00" else "11:00:00") "100" +++ nl).

(** A producer that refuses the event of the group of "a.log". *)
Definition refuse_a (be : billing_event) : pyres unit :=
  if String.eqb (be_uuid be) (tag_uuid "a.log-workspace1-EGRESS-REGION") then Raise PublishError
  else Ok tt.

Definition cfg0 : Pipeline.config := {| Pipeline.LOG_FOLDER := ""; Pipeline.DISTRIBUTION_ID := "" |}.

(** A dotted-quad IPv4 parser for [SubnetTree]: the address is stored as
    the IPv4-mapped IPv6 address ::ffff:a.b.c.d. *)
Definition octet (s : string) : option Z :=
  match list_ascii_of_string s with
  | [] => None
  | l => match num_of l with Some n => if n <=? 255 then Some n else None | None => None end
  end.

Definition parse_v4 (s : string) : option Z :=
  match map octet (split_on "."%char s) with
  | [Some a; Some b; Some c; Some d] => Some (((a * 256 + b) * 256 + c) * 256 + d)
  | _ => None
  end.

Definition v4_mapped (n : Z) : Classifier.addr := 65535 * 2 ^ 32 + n.

Definition parse_addr_v4 (s : string) : option Classifier.addr :=
  option_map v4_mapped (parse_v4 s).

(** "a.b.c.d/len": an IPv4 prefix of length [len] is the mapped prefix of
    length [96 + len]. *)
Definition parse_prefix_v4 (s : string) : option Classifier.cidr :=
  match split_on "/"%char s with
  | [ip; len] =>
      match parse_v4 ip, octet len with
      | Some n, Some l =>
          if l <=? 32 then Some {| Classifier.net := v4_mapped n; Classifier.plen := 96 + l |}
          else None
      | _, _ => None
      end
  | _ => None
  end.

(** An IP-range document with one prefix in eu-west-2 and one in us-east-1. *)
Definition ranges_doc : json :=
  JObj [("prefixes", JArr
          [JObj [("ip_prefix", JStr "10.1.0.0/16"); ("region", JStr "eu-west-2");
                 ("service", JStr "AMAZON")];
           JObj [("ip_prefix", JStr "192.168.0.0/16"); ("region", JStr "us-east-1");
                 ("service", JStr "AMAZON")]])]%string.

Definition ranges_trees : Classifier.tree * Classifier.tree :=
  Eval vm_compute in
    match Classifier.build_trees parse_prefix_v4 ranges_doc "eu-west-2" with
    | Ok t => t
    | Raise _ => ([], [])
    end.

(** The fixture of [test_process_log_file_aggregation]: the log object holds
    [two_line_log], identifiers are tagged names. *)
Definition two_line_env : collab := test_env (fun _ => Ok two_line_log) tag_uuid accept_all.

Definition two_line_key : string := "dummy_log.txt-workspace1-EGRESS-REGION".

Definition two_line_agg : agg :=
  Eval vm_compute in
    match aggregate_lines two_line_env "dummy_log.txt" (splitlines two_line_log) [] with
    | Ok a => a
    | Raise _ => []
    end.

Definition two_line_group : group :=
  Eval vm_compute in
    match agg_lookup two_line_key two_line_agg with Some g => g | None => empty_group end.

Definition two_line_event : billing_event :=
  {| be_uuid := tag_uuid two_line_key;
     be_event_start := "2025-04-07T13:38:48Z"; be_event_end := "2025-04-07T13:39:00Z";
     be_sku := Some "EGRESS-REGION"%string; be_workspace := Some "workspace1"%string;
     be_quantity := 598 |}.

(** Object stores where the download of "a.log" fails, or gives no text. *)
Definition store_a_fails (key : string) : pyres string :=
  if String.eqb key "a.log" then Raise OSError else store_ab key.

Definition store_a_empty (key : string) : pyres string :=
  if String.eqb key "a.log" then Ok ""%string else store_ab key.

(** A state file holding {"processed": ["x"]}. *)
Definition state_x : State.state_file :=
  State.SText (Some (JObj [("processed"%string, JArr [JStr "x"])])).

End Concrete.

(** ** Vocabulary of the statements *)

Module Vocab.
Import Scanner.

(** The byte counts of records, added up. *)
Definition sum_sizes (rs : list event_data) : Z :=
  fold_right (fun r acc => ev_data_size r + acc) 0 rs.

(** The records of one aggregation key. *)
Definition of_key (k : string) (rs : list event_data) : list event_data :=
  filter (fun r => String.eqb (ev_aggregation_key r) k) rs.

(** [ts] is the instant [process_log_file] parses from the record. *)
Definition parsed (env : collab) (r : event_data) (ts : datetime) : Prop :=
  fromisoformat env (remove_char "Z"%char (ev_timestamp r)) = Ok ts.

(** A group sums the records of its key, and its interval is the least and
    the greatest of their instants. *)
Definition group_ok (env : collab) (g : group) (rs : list event_data) : Prop :=
  g_data_size g = sum_sizes rs /\
  exists e l, g_earliest g = Some e /\ g_latest g = Some l /\
    (forall r, In r rs -> exists ts, parsed env r ts /\ dt_le e ts /\ dt_le ts l) /\
    (exists r, In r rs /\ parsed env r e) /\
    (exists r, In r rs /\ parsed env r l).

Definition agg_ok (env : collab) (a : agg) (rs : list event_data) : Prop :=
  forall k, match agg_lookup k a with
            | Some g => group_ok env g (of_key k rs)
            | None => of_key k rs = []
            end.

(** Every group of a file's aggregation carries the workspace and the tier
    its key is made of. *)
Definition keyed (key : string) (a : agg) : Prop :=
  Forall (fun kg => exists ws sku, g_workspace (snd kg) = Some ws /\ g_sku (snd kg) = Some sku /\
                                   fst kg = key +++ "-" +++ ws +++ "-" +++ sku) a.

(** The partitions of an IP-range document. *)
Section Partitions.
Variable parse_prefix : string -> option Classifier.cidr.

(** The address [a] lies in the prefix held by the field value [c]. *)
Definition cidr_hit (c : json) (a : Classifier.addr) : Prop :=
  exists s p, c = JStr s /\ truthy c = true /\ parse_prefix s = Some p /\
              Classifier.cidr_match p a = true.

(** The entry [p] is in the partition [same] (the current region or not)
    and one of its prefixes holds [a]. *)
Definition entry_matches (same : bool) (current_region : string) (a : Classifier.addr)
  (p : json) : Prop :=
  match p with
  | JObj f =>
      Classifier.region_is (dict_get_default "region" (JStr "") f) current_region = same /\
      (cidr_hit (dict_get_default "ip_prefix" JNull f) a \/
       cidr_hit (dict_get_default "ipv6_prefix" JNull f) a)
  | _ => False
  end.

(** The entries of the "prefixes" list of a document. *)
Definition doc_entries (doc : json) : list json :=
  match doc with
  | JObj f => match py_iter (dict_get_default "prefixes" (JArr []) f) with
              | Ok es => es
              | Raise _ => []
              end
  | _ => []
  end.

Definition in_partition (same : bool) (current_region : string) (a : Classifier.addr)
  (doc : json) : Prop :=
  exists p, In p (doc_entries doc) /\ entry_matches same current_region a p.

End Partitions.

(** Some prefix of the tree holds the address. *)
Definition tree_has (t : Classifier.tree) (a : Classifier.addr) : Prop :=
  exists c, In c t /\ Classifier.cidr_match c a = true.

(** The document [AWSIPClassifier.__init__] goes on with: the live one when
    it loads, else the fallback file's when one is named and loads. *)
Definition loaded_document (fetch_live : pyres json) (fallback_file : option string)
  (load_file : string -> pyres json) : option json :=
  match fetch_live with
  | Ok d => Some d
  | Raise _ =>
      match fallback_file with
      | Some ff => if String.eqb ff "" then None
                   else match load_file ff with Ok d => Some d | Raise _ => None end
      | None => None
      end
  end.

(** The documents [build_trees] accepts: an object whose "prefixes" can be
    iterated, each entry an object whose truthy prefixes parse. *)
Section WellFormed.
Variable parse_prefix : string -> option Classifier.cidr.

Definition slot_wf (c : json) : bool :=
  if truthy c then
    match c with
    | JStr s => match parse_prefix s with Some _ => true | None => false end
    | _ => false
    end
  else true.

Definition entry_wf (p : json) : bool :=
  match p with
  | JObj f => slot_wf (dict_get_default "ip_prefix" JNull f) &&
              slot_wf (dict_get_default "ipv6_prefix" JNull f)
  | _ => false
  end.

Definition doc_wf (d : json) : bool :=
  match d with
  | JObj f => match py_iter (dict_get_default "prefixes" (JArr []) f) with
              | Ok es => forallb entry_wf es
              | Raise _ => false
              end
  | _ => false
  end.

End WellFormed.


End Vocab.

(** ** Vocabulary of further properties *)

Module ExtraVocab.
Import State.

(** No two elements of the list are equal under Python [==]: the list is a
    set as [set_add] builds it. *)
Fixpoint py_distinct (l : list json) : bool :=
  match l with
  | [] => true
  | x :: t => negb (existsb (py_eq x) t) && py_distinct t
  end.

(** The keys of [ks] not in [seen], each once, in the order of their first
    occurrence. *)
Fixpoint first_occurrences (seen : list string) (ks : list string) : list string :=
  match ks with
  | [] => []
  | k :: t =>
      if existsb (String.eqb k) seen then first_occurrences seen t
      else k :: first_occurrences (k :: seen) t
  end.

(** A group [add_record] has touched has both ends of its interval. *)
Definition timed (kg : string * Scanner.group) : Prop :=
  exists e l, Scanner.g_earliest (snd kg) = Some e /\ Scanner.g_latest (snd kg) = Some l.

End ExtraVocab.

(** ** Further scenarios *)

Module ExtraConcrete.
Import Scanner Concrete.

Definition ws1_host : string := "ws1.eodatahub-workspaces.org.uk".
Definition ws2_host : string := "ws2.eodatahub-workspaces.org.uk".

(** A log of three lines: workspace ws1, then ws2, then ws1 again. *)
Definition three_line_log : string :=
  log_line_host ws1_host "10:00:00" "100" +++ nl
  +++ log_line_host ws2_host "10:05:00" "50" +++ nl
  +++ log_line_host ws1_host "10:10:00" "25" +++ nl.

Definition three_line_env (send : billing_event -> pyres unit) : collab :=
  test_env (fun _ => Ok three_line_log) tag_uuid send.

(** A producer that refuses the event of the ws2 group of "f.log". *)
Definition refuse_ws2 (be : billing_event) : pyres unit :=
  if String.eqb (be_uuid be) (tag_uuid "f.log-ws2-EGRESS-REGION") then Raise PublishError
  else Ok tt.

Definition three_line_agg : agg :=
  Eval vm_compute in
    match aggregate_lines (three_line_env accept_all) "f.log" (splitlines three_line_log) [] with
    | Ok a => a
    | Raise _ => []
    end.

(** Two lines of one group whose byte counts add up to 2^53 + 1, which
    has no double. *)
Definition big_log : string :=
  log_line "10:00:00" "9007199254740000" +++ nl +++ log_line "10:05:00" "993" +++ nl.

Definition big_env : collab := test_env (fun _ => Ok big_log) tag_uuid accept_all.

(** A byte count of 2 * 10^308, beyond the largest double. *)
Definition huge_bytes : string := string_of_list_ascii ("2"%char :: repeat "0"%char 308).

(** A log whose second group (ws2) totals [huge_bytes]. *)
Definition overflow_log : string :=
  log_line_host ws1_host "10:00:00" "100" +++ nl
  +++ log_line_host ws2_host "10:05:00" huge_bytes +++ nl.

Definition overflow_env : collab := test_env (fun _ => Ok overflow_log) tag_uuid accept_all.

Definition overflow_agg : agg :=
  Eval vm_compute in
    match aggregate_lines overflow_env "f.log" (splitlines overflow_log) [] with
    | Ok a => a
    | Raise _ => []
    end.

(** A log line of workspace ws1 from the client [ip]. *)
Definition log_line_ip (ip : string) : string :=
  tab_join ["1744033128"; "EYK26O46YS1D0"; "2025-04-07"; "10:00:00"; "LHR3-C2"; "100";
            ip; "GET"; "dummy.example.com"; "/"; "200"; "-"; "-"; "-"; "-"; "Miss"; "-";
            ws1_host]%string.

(** The record of the line from 10.1.2.3 (a prefix of eu-west-2) under the
    classifier of [ranges_trees]. *)
Definition region_line_record : event_data :=
  Eval vm_compute in
    match process_log_line (Classifier.classify parse_addr_v4 ranges_trees) tag_uuid
            (log_line_ip "10.1.2.3") "f.log" with
    | Ok (Some ev) => ev
    | _ => {| ev_uuid := ""; ev_workspace := ""; ev_sku := ""; ev_data_size := 0;
              ev_timestamp := ""; ev_aggregation_key := "" |}
    end.

End ExtraConcrete.

(** * Properties *)

Module ParserProofs.
Import Scanner.

Lemma body_some classify uuid5 fields log_filename r :
  process_log_line_body classify uuid5 fields log_filename = Ok (Some r) ->
  exists date time_str raw sc_bytes client_ip workspace sku,
    nth_error fields 2 = Some date /\ nth_error fields 3 = Some time_str /\
    nth_error fields 5 = Some raw /\ py_int raw = Some sc_bytes /\
    nth_error fields 6 = Some client_ip /\
    workspace_of_host (x_host_header_of fields) = Some workspace /\
    classify client_ip = Ok sku /\
    r = {| ev_uuid := uuid5 (log_filename +++ "-" +++ workspace +++ "-" +++ sku_value sku);
           ev_workspace := workspace; ev_sku := sku_value sku; ev_data_size := sc_bytes;
           ev_timestamp := date +++ "T" +++ time_str +++ "Z";
           ev_aggregation_key := log_filename +++ "-" +++ workspace +++ "-" +++ sku_value sku |}.
Proof.
  unfold process_log_line_body, field, of_option, bind. intros H.
  destruct (nth_error fields 2) as [date|] eqn:E2; cbv beta iota in H; [|discriminate H].
  destruct (nth_error fields 3) as [time_str|] eqn:E3; cbv beta iota in H; [|discriminate H].
  destruct (nth_error fields 5) as [raw|] eqn:E5; cbv beta iota in H; [|discriminate H].
  destruct (py_int raw) as [n|] eqn:En; cbv beta iota in H; [|discriminate H].
  destruct (nth_error fields 6) as [ip|] eqn:E6; cbv beta iota in H; [|discriminate H].
  destruct (workspace_of_host (x_host_header_of fields)) as [ws|] eqn:Ew; [|discriminate H].
  destruct (classify ip) as [sku|e] eqn:Ec; cbv beta iota in H; [|discriminate H].
  injection H as <-.
  exists date, time_str, raw, n, ip, ws, sku; repeat split; assumption.
Qed.

Lemma short_line_no_workspace fields :
  (List.length fields <= 17)%nat -> workspace_of_host (x_host_header_of fields) = None.
Proof.
  intros Hlen. unfold x_host_header_of.
  destruct (17 <? List.length fields)%nat eqn:E.
  - apply Nat.ltb_lt in E. lia.
  - reflexivity.
Qed.

Lemma process_log_line_ok classify uuid5 line log_filename :
  exists r, process_log_line classify uuid5 line log_filename = Ok r.
Proof.
  unfold process_log_line.
  destruct (String.eqb (strip line) "" || startswith "#" line)%bool; [eauto|].
  destruct (process_log_line_body classify uuid5 (split_on TAB line) log_filename); eauto.
Qed.

Lemma process_log_line_some classify uuid5 line log_filename r :
  process_log_line classify uuid5 line log_filename = Ok (Some r) ->
  process_log_line_body classify uuid5 (split_on TAB line) log_filename = Ok (Some r).
Proof.
  unfold process_log_line.
  destruct (String.eqb (strip line) "" || startswith "#" line)%bool; [discriminate|].
  destruct (process_log_line_body classify uuid5 (split_on TAB line) log_filename); congruence.
Qed.

(** A record carries the identifier of its composite key. *)
Lemma record_key classify uuid5 line log_filename r :
  process_log_line classify uuid5 line log_filename = Ok (Some r) ->
  ev_aggregation_key r = log_filename +++ "-" +++ ev_workspace r +++ "-" +++ ev_sku r /\
  ev_uuid r = uuid5 (ev_aggregation_key r).
Proof.
  intros H. apply process_log_line_some, body_some in H.
  destruct H as (? & ? & ? & ? & ? & ? & ? & _ & _ & _ & _ & _ & _ & _ & ->).
  simpl. split; reflexivity.
Qed.

(** C9: [process_log_line] never raises; blank and comment lines, lines
    with too few fields (fewer than the 18 the host header needs), a
    non-numeric byte count and a host giving no workspace all yield None. *)
Theorem process_log_line_total : forall classify uuid5 line log_filename,
  exists r, process_log_line classify uuid5 line log_filename = Ok r /\
    ((String.eqb (strip line) "" || startswith "#" line)%bool = true -> r = None) /\
    ((List.length (split_on TAB line) <= 17)%nat -> r = None) /\
    (forall raw, nth_error (split_on TAB line) 5 = Some raw -> py_int raw = None -> r = None) /\
    (workspace_of_host (x_host_header_of (split_on TAB line)) = None -> r = None).
Proof.
  intros classify uuid5 line log_filename.
  destruct (process_log_line_ok classify uuid5 line log_filename) as [[r|] Hr].
  - exists (Some r). split; [exact Hr|].
    pose proof (process_log_line_some _ _ _ _ _ Hr) as Hb.
    unfold process_log_line in Hr.
    destruct (String.eqb (strip line) "" || startswith "#" line)%bool eqn:Hblank;
      [discriminate|].
    apply body_some in Hb.
    destruct Hb as (date & t & raw & n & ip & ws & sku & _ & _ & H5 & Hn & _ & Hws & _ & _).
    repeat split.
    + intros H. congruence.
    + intros H. rewrite (short_line_no_workspace _ H) in Hws. discriminate.
    + intros raw' Hraw Hnone. rewrite H5 in Hraw. injection Hraw as <-. congruence.
    + intros H. congruence.
  - exists None. split; [exact Hr|]. repeat split; intros; reflexivity.
Qed.

(** C7 (as amended): a line yields a record only when its host field ends
    with "eodatahub-workspaces.org.uk", and the record's workspace is then the
    first dot-separated label of the host, non-empty; a host not ending with
    that suffix yields no record. *)
Theorem host_header_workspace : forall classify uuid5 line log_filename,
  let host := x_host_header_of (split_on TAB line) in
  (endswith expected_domain host = false ->
     process_log_line classify uuid5 line log_filename = Ok None) /\
  (forall r, process_log_line classify uuid5 line log_filename = Ok (Some r) ->
     endswith expected_domain host = true /\
     hd_error (split_on "."%char host) = Some (ev_workspace r) /\
     ev_workspace r <> ""%string).
Proof.
  intros classify uuid5 line log_filename host. split.
  - intros Hend.
    destruct (process_log_line_ok classify uuid5 line log_filename) as [[r|] Hr];
      [|exact Hr].
    apply process_log_line_some, body_some in Hr.
    destruct Hr as (? & ? & ? & ? & ? & ws & ? & _ & _ & _ & _ & _ & Hws & _).
    unfold workspace_of_host in Hws. fold host in Hws. rewrite Hend in Hws. discriminate.
  - intros r Hr.
    apply process_log_line_some, body_some in Hr.
    destruct Hr as (? & ? & ? & ? & ? & ws & ? & _ & _ & _ & _ & _ & Hws & _ & ->).
    simpl. unfold workspace_of_host in Hws. fold host in Hws.
    destruct (endswith expected_domain host); [|discriminate].
    destruct (split_on "."%char host) as [|p rest]; [discriminate|].
    destruct (String.eqb p "") eqn:Ep; [discriminate|].
    injection Hws as <-. repeat split.
    intros E. subst p. discriminate.
Qed.

End ParserProofs.

Module AggregateProofs.
Import Scanner Vocab ParserProofs.

(** The order of [datetime] sort keys. *)
Lemma lex_irrefl a : lex_ltb a a = false.
Proof.
  induction a as [|x xs IH]; simpl; [reflexivity|].
  rewrite Z.ltb_irrefl, Z.eqb_refl, IH. reflexivity.
Qed.

Lemma lex_trans a b c : lex_ltb a b = true -> lex_ltb b c = true -> lex_ltb a c = true.
Proof.
  revert b c; induction a as [|x xs IH]; intros [|y ys] [|z zs]; simpl;
    try discriminate; try reflexivity.
  intros H1 H2.
  apply orb_true_iff in H1, H2. apply orb_true_iff.
  destruct H1 as [H1|H1]; destruct H2 as [H2|H2];
    try apply andb_true_iff in H1; try apply andb_true_iff in H2.
  - left. apply Z.ltb_lt in H1, H2. apply Z.ltb_lt. lia.
  - left. destruct H2 as [H2 _]. apply Z.ltb_lt in H1. apply Z.eqb_eq in H2.
    apply Z.ltb_lt. lia.
  - left. destruct H1 as [H1 _]. apply Z.ltb_lt in H2. apply Z.eqb_eq in H1.
    apply Z.ltb_lt. lia.
  - right. destruct H1 as [E1 H1], H2 as [E2 H2]. apply Z.eqb_eq in E1, E2.
    apply andb_true_iff. split; [apply Z.eqb_eq; lia | eapply IH; eauto].
Qed.

Lemma lex_total a b : lex_ltb a b = false -> lex_ltb b a = false -> a = b.
Proof.
  revert b; induction a as [|x xs IH]; intros [|y ys]; simpl;
    try discriminate; try reflexivity.
  intros H1 H2.
  apply orb_false_iff in H1, H2. destruct H1 as [L1 H1], H2 as [L2 H2].
  apply Z.ltb_ge in L1, L2. assert (x = y) by lia. subst y.
  rewrite Z.eqb_refl in H1, H2. simpl in H1, H2. f_equal. apply IH; assumption.
Qed.

Lemma dt_le_refl d : dt_le d d.
Proof. apply lex_irrefl. Qed.

Lemma dt_lt_le a b : lex_ltb (dt_key a) (dt_key b) = true -> dt_le a b.
Proof.
  intros H. unfold dt_le. destruct (lex_ltb (dt_key b) (dt_key a)) eqn:E; [|reflexivity].
  pose proof (lex_trans _ _ _ H E) as C. rewrite lex_irrefl in C. discriminate.
Qed.

Lemma dt_le_trans a b c : dt_le a b -> dt_le b c -> dt_le a c.
Proof.
  unfold dt_le. intros H1 H2.
  destruct (lex_ltb (dt_key c) (dt_key a)) eqn:E; [|reflexivity].
  destruct (lex_ltb (dt_key a) (dt_key b)) eqn:F.
  - rewrite (lex_trans _ _ _ E F) in H2. discriminate.
  - rewrite (lex_total _ _ F H1) in E. congruence.
Qed.

Lemma dt_lt_ok a b r : dt_lt a b = Ok r -> r = lex_ltb (dt_key a) (dt_key b).
Proof.
  unfold dt_lt. destruct (dt_tz a), (dt_tz b); congruence.
Qed.

(** The dict operations. *)
Lemma agg_lookup_set_eq k g a : agg_lookup k (agg_set k g a) = Some g.
Proof.
  induction a as [|[k' g'] t IH]; simpl.
  - rewrite String.eqb_refl. reflexivity.
  - destruct (String.eqb k' k) eqn:E; simpl; rewrite ?E; [reflexivity|exact IH].
Qed.

Lemma agg_lookup_set_neq k k' g a :
  k' <> k -> agg_lookup k' (agg_set k g a) = agg_lookup k' a.
Proof.
  intros Hne. induction a as [|[k0 g0] t IH]; simpl.
  - destruct (String.eqb k k') eqn:E; [apply String.eqb_eq in E; congruence|reflexivity].
  - destruct (String.eqb k0 k) eqn:E; simpl.
    + apply String.eqb_eq in E. subst k0.
      destruct (String.eqb k k') eqn:F; [apply String.eqb_eq in F; congruence|reflexivity].
    + destruct (String.eqb k0 k'); [reflexivity|exact IH].
Qed.

Lemma agg_set_forall (P : string * group -> Prop) k g a :
  Forall P a -> P (k, g) -> Forall P (agg_set k g a).
Proof.
  intros Ha Hkg. induction Ha as [|[k' g'] t Hp Ht IH]; simpl.
  - constructor; [exact Hkg|constructor].
  - destruct (String.eqb k' k) eqn:E.
    + apply String.eqb_eq in E. subst k'. constructor; assumption.
    + constructor; assumption.
Qed.

Lemma py_float_small n : Z.abs n <= 2 ^ 53 -> py_float n = Ok n.
Proof.
  intros Hn. assert (Hp : 2 ^ 53 < 2 ^ 1024) by (apply Z.pow_lt_mono_r; lia).
  unfold py_float, round_double.
  destruct (Z.abs n <? 2 ^ 53) eqn:E.
  - cbv zeta. destruct (2 ^ 1024 <=? Z.abs n) eqn:F; [|reflexivity].
    apply Z.leb_le in F. apply Z.ltb_lt in E. lia.
  - apply Z.ltb_ge in E.
    assert (Hc : n = 2 ^ 53 \/ n = - 2 ^ 53) by lia.
    destruct Hc as [-> | ->]; vm_compute; reflexivity.
Qed.

Lemma sum_sizes_app rs ev : sum_sizes (rs ++ [ev]) = sum_sizes rs + ev_data_size ev.
Proof.
  induction rs as [|r t IH]; simpl; [lia|]. rewrite IH. lia.
Qed.

Lemma of_key_app_eq k rs ev :
  ev_aggregation_key ev = k -> of_key k (rs ++ [ev]) = of_key k rs ++ [ev].
Proof.
  intros Hk. unfold of_key. rewrite filter_app. simpl. rewrite Hk, String.eqb_refl. reflexivity.
Qed.

Lemma of_key_app_neq k rs ev :
  ev_aggregation_key ev <> k -> of_key k (rs ++ [ev]) = of_key k rs.
Proof.
  intros Hk. unfold of_key. rewrite filter_app. simpl.
  destruct (String.eqb (ev_aggregation_key ev) k) eqn:E;
    [apply String.eqb_eq in E; congruence|apply app_nil_r].
Qed.

End AggregateProofs.

Module GroupProofs.
Import Scanner Vocab ParserProofs AggregateProofs.

Lemma add_record_ok env a rs ev a' :
  agg_ok env a rs -> add_record env a ev = Ok a' -> agg_ok env a' (rs ++ [ev]).
Proof.
  intros Hok H. unfold add_record, bind in H. cbv zeta in H.
  destruct (fromisoformat env (remove_char "Z"%char (ev_timestamp ev))) as [ts|] eqn:Hts;
    [|discriminate H].
  pose proof (Hok (ev_aggregation_key ev)) as Hk.
  destruct (agg_lookup (ev_aggregation_key ev) a) as [g|] eqn:Hl.
  - destruct Hk as [Hsize (e & l & He & Hl' & Hall & [re [Hre Hpe]] & [rl [Hrl Hpl]])].
    rewrite He, Hl' in H.
    destruct (dt_lt ts e) as [b1|] eqn:B1; [|discriminate H]. cbv beta iota in H.
    destruct (dt_lt l ts) as [b2|] eqn:B2; [|discriminate H]. cbv beta iota in H.
    injection H as <-.
    apply dt_lt_ok in B1, B2.
    intros k. destruct (String.eqb k (ev_aggregation_key ev)) eqn:Ek.
    + apply String.eqb_eq in Ek. subst k.
      rewrite agg_lookup_set_eq, of_key_app_eq by reflexivity.
      split; [simpl; rewrite sum_sizes_app; lia|].
      exists (if b1 then ts else e), (if b2 then ts else l).
      split; [reflexivity|]. split; [reflexivity|]. split; [|split].
      * intros r Hr. apply in_app_or in Hr. destruct Hr as [Hr|[<-|[]]].
        -- destruct (Hall r Hr) as (t & Hpt & Het & Htl). exists t.
           split; [exact Hpt|]. split.
           ++ destruct b1; [|exact Het].
              eapply dt_le_trans; [|exact Het]. apply dt_lt_le. congruence.
           ++ destruct b2; [|exact Htl].
              eapply dt_le_trans; [exact Htl|]. apply dt_lt_le. congruence.
        -- exists ts. split; [exact Hts|]. split.
           ++ destruct b1; [apply dt_le_refl|]. unfold dt_le. congruence.
           ++ destruct b2; [apply dt_le_refl|]. unfold dt_le. congruence.
      * destruct b1.
        -- exists ev. split; [apply in_or_app; right; left; reflexivity|exact Hts].
        -- exists re. split; [apply in_or_app; left; exact Hre|exact Hpe].
      * destruct b2.
        -- exists ev. split; [apply in_or_app; right; left; reflexivity|exact Hts].
        -- exists rl. split; [apply in_or_app; left; exact Hrl|exact Hpl].
    + apply String.eqb_neq in Ek.
      rewrite agg_lookup_set_neq by exact Ek.
      rewrite of_key_app_neq by congruence. exact (Hok k).
  - cbv beta iota in H. simpl in H. injection H as <-.
    intros k. destruct (String.eqb k (ev_aggregation_key ev)) eqn:Ek.
    + apply String.eqb_eq in Ek. subst k.
      rewrite agg_lookup_set_eq, of_key_app_eq, Hk by reflexivity. simpl.
      unfold group_ok. simpl. split; [lia|]. exists ts, ts.
      split; [reflexivity|]. split; [reflexivity|]. split; [|split].
      * intros r [<-|[]]. exists ts. split; [exact Hts|split; apply dt_le_refl].
      * exists ev. split; [left; reflexivity|exact Hts].
      * exists ev. split; [left; reflexivity|exact Hts].
    + apply String.eqb_neq in Ek.
      rewrite agg_lookup_set_neq by exact Ek.
      rewrite of_key_app_neq by congruence. exact (Hok k).
Qed.

Lemma aggregate_lines_ok env key lines : forall a0 rs a,
  agg_ok env a0 rs -> aggregate_lines env key lines a0 = Ok a ->
  agg_ok env a (rs ++ records env key lines).
Proof.
  induction lines as [|line rest IH]; intros a0 rs a Hok H.
  - simpl in H. injection H as <-. simpl. rewrite app_nil_r. exact Hok.
  - cbn [aggregate_lines records] in *. unfold bind in H.
    destruct (process_log_line (classify env) (uuid5 env) line key) as [[ev|]|e];
      [| |discriminate H].
    + destruct (add_record env a0 ev) as [a1|] eqn:Ha; [|discriminate H].
      replace (rs ++ ev :: records env key rest)
        with ((rs ++ [ev]) ++ records env key rest) by (rewrite <- app_assoc; reflexivity).
      eapply IH; [eapply add_record_ok; eauto | exact H].
    + eapply IH; eauto.
Qed.

Lemma agg_ok_empty env : agg_ok env [] [].
Proof. intros k. reflexivity. Qed.

(** C3: for each group of a file, the size is the sum of the byte counts of
    the records of its key, the interval runs from the least to the greatest
    of their parsed instants (so earliest <= latest and every record's
    instant lies inside); the event built for it carries that interval and,
    as its quantity, [float] of that sum: the sum itself when it is at most
    2^53 in magnitude, the nearest double above, and OverflowError instead
    of an event when that double reaches 2^1024. *)
Theorem aggregate_sum_and_interval : forall env key lines a k g,
  aggregate_lines env key lines [] = Ok a ->
  agg_lookup k a = Some g ->
  let rs := of_key k (records env key lines) in
  g_data_size g = sum_sizes rs /\
  exists e l, g_earliest g = Some e /\ g_latest g = Some l /\ dt_le e l /\
    (forall r, In r rs -> exists ts, parsed env r ts /\ dt_le e ts /\ dt_le ts l) /\
    (exists r, In r rs /\ parsed env r e) /\
    (exists r, In r rs /\ parsed env r l) /\
    make_event env k g =
      (quantity <- py_float (sum_sizes rs);;
       Ok {| be_uuid := uuid5 env k; be_event_start := isoformat e +++ "Z";
             be_event_end := isoformat l +++ "Z"; be_sku := g_sku g;
             be_workspace := g_workspace g; be_quantity := quantity |}) /\
    (Z.abs (sum_sizes rs) <= 2 ^ 53 -> py_float (sum_sizes rs) = Ok (sum_sizes rs)).
Proof.
  intros env key lines a k g Hagg Hk rs.
  pose proof (aggregate_lines_ok env key lines [] [] a (agg_ok_empty env) Hagg k) as Hok.
  rewrite Hk in Hok. simpl in Hok. fold rs in Hok.
  destruct Hok as [Hsize (e & l & He & Hl & Hall & [re [Hre Hpe]] & Hlast)].
  split; [exact Hsize|]. exists e, l.
  split; [exact He|]. split; [exact Hl|]. split; [|split; [exact Hall|split; [eauto|split; [exact Hlast|]]]].
  - destruct (Hall re Hre) as (t & Hpt & _ & Htl).
    unfold parsed in Hpt, Hpe. rewrite Hpe in Hpt. injection Hpt as <-. exact Htl.
  - split; [unfold make_event; rewrite He, Hl; simpl; rewrite Hsize; reflexivity|].
    apply py_float_small.
Qed.

End GroupProofs.

Module IdentityProofs.
Import Scanner Vocab ParserProofs AggregateProofs.

Lemma add_record_shape env a ev a' :
  add_record env a ev = Ok a' ->
  exists g, a' = agg_set (ev_aggregation_key ev) g a /\
            g_workspace g = Some (ev_workspace ev) /\ g_sku g = Some (ev_sku ev).
Proof.
  intros H. unfold add_record, bind in H. cbv zeta in H.
  destruct (fromisoformat env (remove_char "Z"%char (ev_timestamp ev))) as [ts|];
    [|discriminate H].
  destruct (match agg_lookup (ev_aggregation_key ev) a with
            | Some g => g | None => empty_group end) as [s e0 l0 w0 k0].
  cbn [g_earliest g_latest g_data_size] in H.
  destruct e0 as [e|]; [destruct (dt_lt ts e) as [b1|]; [|discriminate H]|];
  cbv beta iota in H;
  (destruct l0 as [l|]; [destruct (dt_lt l ts) as [b2|]; [|discriminate H]|]);
  cbv beta iota in H; injection H as <-; eexists; repeat split.
Qed.

Lemma aggregate_keyed env key lines : forall a0 a,
  keyed key a0 -> aggregate_lines env key lines a0 = Ok a -> keyed key a.
Proof.
  induction lines as [|line rest IH]; intros a0 a Hk H.
  - simpl in H. injection H as <-. exact Hk.
  - cbn [aggregate_lines] in H. unfold bind in H.
    destruct (process_log_line (classify env) (uuid5 env) line key) as [[ev|]|e] eqn:Hp;
      [| |discriminate H].
    + destruct (add_record env a0 ev) as [a1|] eqn:Ha; [|discriminate H].
      apply (IH a1); [|exact H].
      destruct (add_record_shape _ _ _ _ Ha) as (g & -> & Hw & Hs).
      apply agg_set_forall; [exact Hk|].
      exists (ev_workspace ev), (ev_sku ev). simpl.
      split; [exact Hw|]. split; [exact Hs|].
      exact (proj1 (record_key _ _ _ _ _ Hp)).
    + eapply IH; eauto.
Qed.

Lemma emit_in env a : forall r sent be,
  emit_groups env a = (r, sent) -> In be sent ->
  exists k g, In (k, g) a /\ make_event env k g = Ok be.
Proof.
  induction a as [|[k g] rest IH]; intros r sent be H Hin; simpl in H.
  - injection H as _ <-. destruct Hin.
  - destruct (make_event env k g) as [be0|e] eqn:Hm.
    + destruct (send env be0).
      * destruct (emit_groups env rest) as [r' sent'] eqn:He.
        injection H as _ <-. destruct Hin as [<-|Hin].
        -- exists k, g. split; [left; reflexivity|exact Hm].
        -- destruct (IH _ _ _ eq_refl Hin) as (k' & g' & Hin' & Hm').
           exists k', g'. split; [right; exact Hin'|exact Hm'].
      * injection H as _ <-. destruct Hin.
    + injection H as _ <-. destruct Hin.
Qed.

Lemma make_event_fields env k g be :
  make_event env k g = Ok be ->
  be_uuid be = uuid5 env k /\ be_workspace be = g_workspace g /\ be_sku be = g_sku g.
Proof.
  unfold make_event, of_option, bind.
  destruct (g_earliest g); [|discriminate]. destruct (g_latest g); [|discriminate].
  destruct (py_float (g_data_size g)); [|discriminate].
  intros H. injection H as <-. repeat split.
Qed.

Lemma in_records env key lines rec :
  In rec (records env key lines) ->
  exists line, process_log_line (classify env) (uuid5 env) line key = Ok (Some rec).
Proof.
  induction lines as [|line rest IH]; simpl; [intros []|].
  destruct (process_log_line (classify env) (uuid5 env) line key) as [[ev|]|e] eqn:Hp;
    try exact IH.
  intros [<-|Hin]; [exists line; exact Hp|exact (IH Hin)].
Qed.

Lemma aggregate_ext env env' key lines :
  classify env' = classify env -> uuid5 env' = uuid5 env ->
  fromisoformat env' = fromisoformat env ->
  forall a0, aggregate_lines env' key lines a0 = aggregate_lines env key lines a0.
Proof.
  intros Hc Hu Hf.
  assert (Hadd : forall a ev, add_record env' a ev = add_record env a ev)
    by (intros; unfold add_record; rewrite Hf; reflexivity).
  induction lines as [|line rest IH]; intros a0; [reflexivity|].
  cbn [aggregate_lines]. rewrite Hc, Hu.
  destruct (process_log_line (classify env) (uuid5 env) line key) as [[ev|]|e];
    simpl; [rewrite Hadd; destruct (add_record env a0 ev)|..]; simpl; auto.
Qed.

(** C4: every event sent for a file carries the identifier [uuid5] derives
    from the composite key "file-workspace-tier" of its own workspace and
    tier; every record of that workspace and tier carries the same
    identifier; and the groups depend only on the file's lines, the
    classifier, the timestamp parser and [uuid5], so a re-run on the same
    lines rebuilds the same groups, identifiers included. *)
Theorem event_identity_from_key : forall env key lines a r sent be,
  aggregate_lines env key lines [] = Ok a ->
  emit_groups env a = (r, sent) ->
  In be sent ->
  exists ws sku,
    be_workspace be = Some ws /\ be_sku be = Some sku /\
    be_uuid be = uuid5 env (key +++ "-" +++ ws +++ "-" +++ sku) /\
    (forall rec, In rec (records env key lines) ->
       ev_workspace rec = ws -> ev_sku rec = sku -> ev_uuid rec = be_uuid be) /\
    (forall env', classify env' = classify env -> uuid5 env' = uuid5 env ->
       fromisoformat env' = fromisoformat env ->
       aggregate_lines env' key lines [] = Ok a).
Proof.
  intros env key lines a r sent be Hagg Hemit Hin.
  pose proof (aggregate_keyed env key lines [] a (Forall_nil _) Hagg) as Hkeyed.
  destruct (emit_in _ _ _ _ _ Hemit Hin) as (k & g & Hkg & Hm).
  destruct (make_event_fields _ _ _ _ Hm) as (Hu & Hw & Hs).
  apply Forall_forall with (x := (k, g)) in Hkeyed; [|exact Hkg].
  destruct Hkeyed as (ws & sku & Hgw & Hgs & Hk). simpl in Hgw, Hgs, Hk.
  exists ws, sku. split; [congruence|]. split; [congruence|].
  split; [rewrite Hu, Hk; reflexivity|]. split.
  - intros rec Hrec Hrw Hrs.
    destruct (in_records _ _ _ _ Hrec) as (line & Hp).
    destruct (record_key _ _ _ _ _ Hp) as [Hkey Huuid].
    rewrite Huuid, Hkey, Hrw, Hrs, Hu, Hk. reflexivity.
  - intros env' Hc Hu' Hf. rewrite (aggregate_ext env env' key lines Hc Hu' Hf). exact Hagg.
Qed.

End IdentityProofs.

Module ClassifierProofs.
Import Classifier Vocab.

Section Trees.
Variable parse_prefix : string -> option cidr.

Lemma tree_has_app t p a :
  tree_has (t ++ [p]) a <-> tree_has t a \/ cidr_match p a = true.
Proof.
  unfold tree_has. split.
  - intros (c & Hin & Hm). apply in_app_or in Hin. destruct Hin as [Hin|[<-|[]]].
    + left. exists c. split; assumption.
    + right. exact Hm.
  - intros [(c & Hin & Hm)|Hm].
    + exists c. split; [apply in_or_app; left; exact Hin|exact Hm].
    + exists p. split; [apply in_or_app; right; left; reflexivity|exact Hm].
Qed.

Lemma tree_has_nil a : ~ tree_has [] a.
Proof. intros (c & [] & _). Qed.

Lemma tree_insert_ok t c t' :
  tree_insert parse_prefix t c = Ok t' ->
  exists s p, c = JStr s /\ parse_prefix s = Some p /\ t' = t ++ [p].
Proof.
  unfold tree_insert, of_option, bind. destruct c as [| | |s| |]; try discriminate.
  destruct (parse_prefix s) as [p|] eqn:Hp; simpl; [|discriminate]. intros H.
  injection H as <-. exists s, p. repeat split. exact Hp.
Qed.

Lemma insert_hit t c t' a :
  truthy c = true -> tree_insert parse_prefix t c = Ok t' ->
  (tree_has t' a <-> tree_has t a \/ cidr_hit parse_prefix c a).
Proof.
  intros Ht Hi. destruct (tree_insert_ok _ _ _ Hi) as (s & p & -> & Hp & ->).
  rewrite tree_has_app. unfold cidr_hit. split.
  - intros [H|H]; [left; exact H|right; exists s, p; repeat split; assumption].
  - intros [H|(s' & p' & Hs & _ & Hp' & Hm)]; [left; exact H|right].
    injection Hs as <-. rewrite Hp in Hp'. injection Hp' as <-. exact Hm.
Qed.

Lemma add_prefix_spec trees same c trees' :
  add_prefix parse_prefix trees same c = Ok trees' ->
  forall a,
    (tree_has (fst trees') a <-> tree_has (fst trees) a \/ (same = true /\ cidr_hit parse_prefix c a)) /\
    (tree_has (snd trees') a <-> tree_has (snd trees) a \/ (same = false /\ cidr_hit parse_prefix c a)).
Proof.
  unfold add_prefix, bind. intros H a. destruct (truthy c) eqn:Ht.
  - destruct same.
    + destruct (tree_insert parse_prefix (fst trees) c) as [t|] eqn:Hi; [|discriminate H].
      injection H as <-. simpl. rewrite (insert_hit _ _ _ a Ht Hi).
      split; [intuition|]. intuition discriminate.
    + destruct (tree_insert parse_prefix (snd trees) c) as [t|] eqn:Hi; [|discriminate H].
      injection H as <-. simpl. rewrite (insert_hit _ _ _ a Ht Hi).
      split; [|intuition]. intuition discriminate.
  - injection H as <-.
    assert (Hn : ~ cidr_hit parse_prefix c a)
      by (intros (s & p & _ & Ht' & _); congruence).
    split; intuition.
Qed.

Lemma build_step_spec trees p current_region trees' :
  build_step parse_prefix trees p current_region = Ok trees' ->
  forall a,
    (tree_has (fst trees') a <-> tree_has (fst trees) a \/ entry_matches parse_prefix true current_region a p) /\
    (tree_has (snd trees') a <-> tree_has (snd trees) a \/ entry_matches parse_prefix false current_region a p).
Proof.
  destruct p as [| | | | |f]; try discriminate.
  unfold build_step, bind. cbv zeta.
  destruct (add_prefix parse_prefix trees _ (dict_get_default "ip_prefix" JNull f)) as [t1|] eqn:E1;
    [|discriminate].
  intros E2 a. simpl entry_matches.
  destruct (add_prefix_spec _ _ _ _ E1 a) as [A1 B1].
  destruct (add_prefix_spec _ _ _ _ E2 a) as [A2 B2].
  rewrite A2, A1, B2, B1.
  destruct (region_is (dict_get_default "region" (JStr "") f) current_region);
    split; intuition discriminate.
Qed.

Lemma build_loop_spec current_region entries : forall trees trees',
  build_loop parse_prefix entries current_region trees = Ok trees' ->
  forall a,
    (tree_has (fst trees') a <-> tree_has (fst trees) a \/
       exists p, In p entries /\ entry_matches parse_prefix true current_region a p) /\
    (tree_has (snd trees') a <-> tree_has (snd trees) a \/
       exists p, In p entries /\ entry_matches parse_prefix false current_region a p).
Proof.
  induction entries as [|p rest IH]; intros trees trees' H a.
  - simpl in H. injection H as <-.
    split; split; intros Hx; try (left; exact Hx);
      (destruct Hx as [Hx|(q & [] & _)]; exact Hx).
  - simpl in H. unfold bind in H.
    destruct (build_step parse_prefix trees p current_region) as [t|] eqn:Es; [|discriminate H].
    destruct (IH _ _ H a) as [A2 B2].
    destruct (build_step_spec _ _ _ _ Es a) as [A1 B1].
    rewrite A2, A1, B2, B1. split.
    + split.
      * intros [[Hx|Hx]|(q & Hq & Hm)]; [left; exact Hx|right; exists p; split; [left|]; auto|].
        right. exists q. split; [right|]; assumption.
      * intros [Hx|(q & [<-|Hq] & Hm)]; [left; left; exact Hx|left; right; exact Hm|].
        right. exists q. split; assumption.
    + split.
      * intros [[Hx|Hx]|(q & Hq & Hm)]; [left; exact Hx|right; exists p; split; [left|]; auto|].
        right. exists q. split; [right|]; assumption.
      * intros [Hx|(q & [<-|Hq] & Hm)]; [left; left; exact Hx|left; right; exact Hm|].
        right. exists q. split; assumption.
Qed.

Lemma build_trees_spec doc current_region trees :
  build_trees parse_prefix doc current_region = Ok trees ->
  forall a,
    (tree_has (fst trees) a <-> in_partition parse_prefix true current_region a doc) /\
    (tree_has (snd trees) a <-> in_partition parse_prefix false current_region a doc).
Proof.
  unfold build_trees, bind. destruct doc as [| | | | |f]; try discriminate.
  unfold in_partition, doc_entries.
  destruct (py_iter (dict_get_default "prefixes" (JArr []) f)) as [es|]; [|discriminate].
  intros H a. destruct (build_loop_spec _ _ _ _ H a) as [A B].
  rewrite A, B. simpl.
  pose proof (tree_has_nil a). split; intuition.
Qed.

End Trees.

Lemma tree_contains_spec (parse_addr : string -> option addr) t ip a :
  parse_addr ip = Some a ->
  exists b, tree_contains parse_addr t ip = Ok b /\ (b = true <-> tree_has t a).
Proof.
  intros Ha. unfold tree_contains, of_option, bind. rewrite Ha.
  eexists. split; [reflexivity|]. unfold tree_has. rewrite existsb_exists. reflexivity.
Qed.

End ClassifierProofs.

Module ClassifierTheorem.
Import Classifier Vocab ClassifierProofs.

(** C2: for the trees built from an IP-range document and any address the
    parser accepts (IPv4 or IPv6), [classify] returns EGRESS-REGION exactly
    when a prefix of a current-region entry holds the address; otherwise
    EGRESS-INTERREGION exactly when a prefix of another region's entry holds
    it; otherwise EGRESS-INTERNET. An address in both partitions is
    classified EGRESS-REGION. *)
Theorem classify_tiers : forall parse_prefix parse_addr doc current_region trees ip a,
  build_trees parse_prefix doc current_region = Ok trees ->
  parse_addr ip = Some a ->
  (classify parse_addr trees ip = Ok REGION <->
     in_partition parse_prefix true current_region a doc) /\
  (classify parse_addr trees ip = Ok INTERREGION <->
     ~ in_partition parse_prefix true current_region a doc /\
     in_partition parse_prefix false current_region a doc) /\
  (classify parse_addr trees ip = Ok INTERNET <->
     ~ in_partition parse_prefix true current_region a doc /\
     ~ in_partition parse_prefix false current_region a doc) /\
  (in_partition parse_prefix true current_region a doc ->
   in_partition parse_prefix false current_region a doc ->
   classify parse_addr trees ip = Ok REGION).
Proof.
  intros parse_prefix parse_addr doc current_region trees ip a Hb Ha.
  destruct (build_trees_spec _ _ _ _ Hb a) as [Hcur Haws].
  destruct (tree_contains_spec parse_addr (fst trees) ip a Ha) as (b1 & E1 & H1).
  destruct (tree_contains_spec parse_addr (snd trees) ip a Ha) as (b2 & E2 & H2).
  rewrite <- Hcur, <- Haws, <- H1, <- H2.
  unfold classify, bind. rewrite E1.
  destruct b1.
  - repeat split; intuition discriminate.
  - rewrite E2. destruct b2; repeat split; intuition discriminate.
Qed.

End ClassifierTheorem.

Module ClassifierWitness.
Import Classifier Vocab Concrete ClassifierTheorem.

Lemma classify_tiers_witness :
  build_trees parse_prefix_v4 ranges_doc "eu-west-2" = Ok ranges_trees /\
  in_partition parse_prefix_v4 true "eu-west-2" (v4_mapped 167838211) ranges_doc /\
  (~ in_partition parse_prefix_v4 true "eu-west-2" (v4_mapped 3232235777) ranges_doc /\
   in_partition parse_prefix_v4 false "eu-west-2" (v4_mapped 3232235777) ranges_doc) /\
  (~ in_partition parse_prefix_v4 true "eu-west-2" (v4_mapped 134744072) ranges_doc /\
   ~ in_partition parse_prefix_v4 false "eu-west-2" (v4_mapped 134744072) ranges_doc).
Proof.
  assert (Hb : build_trees parse_prefix_v4 ranges_doc "eu-west-2" = Ok ranges_trees)
    by (vm_compute; reflexivity).
  assert (H1 : parse_addr_v4 "10.1.2.3" = Some (v4_mapped 167838211))
    by (vm_compute; reflexivity).
  assert (H2 : parse_addr_v4 "192.168.1.1" = Some (v4_mapped 3232235777))
    by (vm_compute; reflexivity).
  assert (H3 : parse_addr_v4 "8.8.8.8" = Some (v4_mapped 134744072))
    by (vm_compute; reflexivity).
  destruct (classify_tiers _ _ _ _ _ _ _ Hb H1) as [R1 _].
  destruct (classify_tiers _ _ _ _ _ _ _ Hb H2) as [_ [R2 _]].
  destruct (classify_tiers _ _ _ _ _ _ _ Hb H3) as [_ [_ [R3 _]]].
  split; [exact Hb|]. split; [apply R1; vm_compute; reflexivity|].
  split; [apply R2; vm_compute; reflexivity|].
  apply R3; vm_compute; reflexivity.
Defined.

End ClassifierWitness.

Module AggregateWitness.
Import Scanner Vocab Concrete GroupProofs IdentityProofs.

Lemma aggregate_sum_and_interval_witness :
  process_log_file two_line_env "dummy_log.txt" = (Ok true, [two_line_event]) /\
  sum_sizes (of_key two_line_key (records two_line_env "dummy_log.txt" (splitlines two_line_log)))
    = 598 /\
  (let rs := of_key two_line_key (records two_line_env "dummy_log.txt" (splitlines two_line_log)) in
   g_data_size two_line_group = sum_sizes rs /\
   exists e l, g_earliest two_line_group = Some e /\ g_latest two_line_group = Some l /\
     dt_le e l /\
     (forall r, In r rs -> exists ts, parsed two_line_env r ts /\ dt_le e ts /\ dt_le ts l) /\
     (exists r, In r rs /\ parsed two_line_env r e) /\
     (exists r, In r rs /\ parsed two_line_env r l) /\
     make_event two_line_env two_line_key two_line_group =
       (quantity <- py_float (sum_sizes rs);;
        Ok {| be_uuid := uuid5 two_line_env two_line_key; be_event_start := isoformat e +++ "Z";
              be_event_end := isoformat l +++ "Z"; be_sku := g_sku two_line_group;
              be_workspace := g_workspace two_line_group; be_quantity := quantity |}) /\
     (Z.abs (sum_sizes rs) <= 2 ^ 53 -> py_float (sum_sizes rs) = Ok (sum_sizes rs))).
Proof.
  assert (H1 : aggregate_lines two_line_env "dummy_log.txt" (splitlines two_line_log) []
               = Ok two_line_agg) by (vm_compute; reflexivity).
  assert (H2 : agg_lookup two_line_key two_line_agg = Some two_line_group)
    by (vm_compute; reflexivity).
  split; [vm_compute; reflexivity|]. split; [vm_compute; reflexivity|].
  exact (aggregate_sum_and_interval _ _ _ _ _ _ H1 H2).
Defined.

End AggregateWitness.

Module IdentityWitness.
Import Scanner Vocab Concrete IdentityProofs.

Lemma event_identity_from_key_witness :
  emit_groups two_line_env two_line_agg = (Ok true, [two_line_event]) /\
  exists ws sku,
    be_workspace two_line_event = Some ws /\ be_sku two_line_event = Some sku /\
    be_uuid two_line_event = uuid5 two_line_env ("dummy_log.txt" +++ "-" +++ ws +++ "-" +++ sku) /\
    (forall rec, In rec (records two_line_env "dummy_log.txt" (splitlines two_line_log)) ->
       ev_workspace rec = ws -> ev_sku rec = sku -> ev_uuid rec = be_uuid two_line_event) /\
    (forall env', classify env' = classify two_line_env -> uuid5 env' = uuid5 two_line_env ->
       fromisoformat env' = fromisoformat two_line_env ->
       aggregate_lines env' "dummy_log.txt" (splitlines two_line_log) [] = Ok two_line_agg).
Proof.
  assert (H1 : aggregate_lines two_line_env "dummy_log.txt" (splitlines two_line_log) []
               = Ok two_line_agg) by (vm_compute; reflexivity).
  assert (H2 : emit_groups two_line_env two_line_agg = (Ok true, [two_line_event]))
    by (vm_compute; reflexivity).
  split; [exact H2|].
  exact (event_identity_from_key _ _ _ _ _ _ _ H1 H2 (or_introl eq_refl)).
Defined.

End IdentityWitness.

Module InitProofs.
Import Classifier Vocab.

Section WellFormed.
Variable parse_prefix : string -> option cidr.

Lemma add_prefix_ok trees same c :
  (exists t, add_prefix parse_prefix trees same c = Ok t) <-> slot_wf parse_prefix c = true.
Proof.
  unfold add_prefix, slot_wf. destruct (truthy c).
  - assert (Hi : forall t, (exists t', tree_insert parse_prefix t c = Ok t') <->
                           match c with
                           | JStr s => match parse_prefix s with Some _ => true | None => false end
                           | _ => false
                           end = true).
    { intros t. unfold tree_insert, of_option, bind.
      destruct c as [| | |s| |];
        try (split; [intros [t' Ht']; discriminate Ht'|discriminate]).
      destruct (parse_prefix s); simpl.
      - split; [reflexivity|]. intros _. eexists; reflexivity.
      - split; [intros [t' Ht']; discriminate Ht'|discriminate]. }
    rewrite <- (Hi (if same then fst trees else snd trees)).
    destruct same; unfold bind.
    + destruct (tree_insert parse_prefix (fst trees) c).
      * split; intros _; eexists; reflexivity.
      * split; intros [t' Ht']; discriminate Ht'.
    + destruct (tree_insert parse_prefix (snd trees) c).
      * split; intros _; eexists; reflexivity.
      * split; intros [t' Ht']; discriminate Ht'.
  - split; [reflexivity|]. intros _. eexists; reflexivity.
Qed.

Lemma ok_bind {A B} (m : pyres A) (k : A -> pyres B) :
  (exists b, (x <- m;; k x) = Ok b) <-> exists a, m = Ok a /\ exists b, k a = Ok b.
Proof.
  unfold bind. destruct m as [a|e].
  - split; [intros H; exists a; split; [reflexivity|exact H]|].
    intros (a' & Ha & H). injection Ha as <-. exact H.
  - split; [intros [b Hb]; discriminate Hb|intros (a' & Ha & _); discriminate Ha].
Qed.

Lemma build_step_ok trees p current_region :
  (exists t, build_step parse_prefix trees p current_region = Ok t) <->
  entry_wf parse_prefix p = true.
Proof.
  destruct p as [| | | | |f];
    try (simpl; split; [intros [t Ht]; discriminate Ht|discriminate]).
  unfold build_step, entry_wf. cbv zeta. rewrite ok_bind, andb_true_iff.
  set (same := region_is (dict_get_default "region" (JStr "") f) current_region).
  split.
  - intros (t1 & H1 & H2).
    split; [apply (proj1 (add_prefix_ok trees same _)); exists t1; exact H1|].
    exact (proj1 (add_prefix_ok t1 same _) H2).
  - intros [W1 W2]. destruct (proj2 (add_prefix_ok trees same _) W1) as [t1 H1].
    exists t1. split; [exact H1|]. exact (proj2 (add_prefix_ok t1 same _) W2).
Qed.

Lemma build_loop_ok current_region entries : forall trees,
  (exists t, build_loop parse_prefix entries current_region trees = Ok t) <->
  forallb (entry_wf parse_prefix) entries = true.
Proof.
  induction entries as [|p rest IH]; intros trees; simpl.
  - split; [reflexivity|]. intros _. eexists; reflexivity.
  - rewrite ok_bind, andb_true_iff, <- (build_step_ok trees p current_region). split.
    + intros (t1 & H1 & H2). split; [exists t1; exact H1|]. apply (IH t1). exact H2.
    + intros [[t1 H1] H2]. exists t1. split; [exact H1|]. apply IH. exact H2.
Qed.

Lemma build_trees_ok doc current_region :
  (exists t, build_trees parse_prefix doc current_region = Ok t) <->
  doc_wf parse_prefix doc = true.
Proof.
  unfold build_trees, doc_wf.
  destruct doc as [| | | | |f];
    try (simpl; split; [intros [t Ht]; discriminate Ht|discriminate]).
  simpl. unfold bind at 1.
  destruct (py_iter (dict_get_default "prefixes" (JArr []) f)) as [es|e].
  - apply build_loop_ok.
  - split; [intros [t Ht]; discriminate Ht|discriminate].
Qed.

Lemma classifier_init_doc fetch_live fallback_file load_file current_region :
  classifier_init parse_prefix fetch_live fallback_file load_file current_region =
  match loaded_document fetch_live fallback_file load_file with
  | Some d => build_trees parse_prefix d current_region
  | None => Raise Exception
  end.
Proof.
  unfold classifier_init, loaded_document, bind.
  destruct fetch_live as [d|e]; [reflexivity|].
  destruct fallback_file as [ff|]; [|reflexivity].
  destruct (String.eqb ff ""); [reflexivity|].
  destruct (load_file ff); reflexivity.
Qed.

End WellFormed.

End InitProofs.

Module InitTheorem.
Import Classifier Vocab InitProofs.

(** C5 (amended): the scanner's classifier construction raises exactly when
    no document loads (the live fetch fails and the fallback file is not
    named, is empty or fails to load) or when the document it goes on with
    is not one [build_trees] accepts. The live document is used whenever
    the fetch succeeds, even a malformed one, and the fallback is then not
    tried; otherwise the trees are those built from the loaded document. *)
Theorem classifier_init_outcome : forall parse_prefix fetch_live fallback_file load_file
  current_region,
  ((exists e, scanner_init_classifier parse_prefix fetch_live fallback_file load_file
                current_region = Raise e) <->
   match loaded_document fetch_live fallback_file load_file with
   | None => True
   | Some d => doc_wf parse_prefix d = false
   end) /\
  (forall d, loaded_document fetch_live fallback_file load_file = Some d ->
   forall trees,
     scanner_init_classifier parse_prefix fetch_live fallback_file load_file current_region
       = Ok trees <-> build_trees parse_prefix d current_region = Ok trees).
Proof.
  intros parse_prefix fetch_live fallback_file load_file current_region.
  unfold scanner_init_classifier. rewrite classifier_init_doc.
  destruct (loaded_document fetch_live fallback_file load_file) as [d|].
  - split.
    + destruct (doc_wf parse_prefix d) eqn:Hw.
      * split; [|discriminate]. intros [e He].
        destruct (proj2 (build_trees_ok parse_prefix d current_region) Hw) as [t Ht].
        rewrite Ht in He. discriminate He.
      * split; [reflexivity|]. intros _.
        destruct (build_trees parse_prefix d current_region) as [t|e] eqn:Hb.
        -- assert (Hok : doc_wf parse_prefix d = true)
             by (apply (build_trees_ok parse_prefix d current_region); exists t; exact Hb).
           congruence.
        -- exists e. reflexivity.
    + intros d' Hd trees. injection Hd as <-.
      destruct (build_trees parse_prefix d current_region); reflexivity.
  - split.
    + split; [intros _; exact I|]. intros _. exists Exception. reflexivity.
    + intros d' Hd. discriminate Hd.
Qed.

End InitTheorem.

Module InitExamples.
Import Classifier Vocab Concrete InitTheorem.

(** C5, counterexample: the live fetch succeeds with a JSON array, so
    the fallback file (which holds a good document) is never read and
    construction raises AttributeError; and a live document without
    "prefixes" builds empty trees, so every address is EGRESS-INTERNET. *)
Lemma classifier_init_live_malformed :
  scanner_init_classifier parse_prefix_v4 (Ok (JArr [])) (Some "ip-ranges.json"%string)
    (fun _ => Ok ranges_doc) "eu-west-2" = Raise AttributeError /\
  scanner_init_classifier parse_prefix_v4 (Raise OSError) (Some "ip-ranges.json"%string)
    (fun _ => Ok ranges_doc) "eu-west-2" = Ok ranges_trees /\
  scanner_init_classifier parse_prefix_v4 (Ok (JObj [])) (Some "ip-ranges.json"%string)
    (fun _ => Ok ranges_doc) "eu-west-2" = Ok ([], []) /\
  classify parse_addr_v4 ([], []) "10.1.2.3" = Ok INTERNET /\
  classify parse_addr_v4 ranges_trees "10.1.2.3" = Ok REGION.
Proof. vm_compute. repeat split. Qed.

Lemma classifier_init_outcome_witness :
  loaded_document (Raise OSError) (Some "ip-ranges.json"%string) (fun _ => Ok ranges_doc)
    = Some ranges_doc /\
  scanner_init_classifier parse_prefix_v4 (Raise OSError) (Some "ip-ranges.json"%string)
    (fun _ => Ok ranges_doc) "eu-west-2" = Ok ranges_trees /\
  (exists e, scanner_init_classifier parse_prefix_v4 (Raise OSError) None
               (fun _ => Ok ranges_doc) "eu-west-2" = Raise e).
Proof.
  assert (Hd : loaded_document (Raise OSError) (Some "ip-ranges.json"%string)
                 (fun _ => Ok ranges_doc) = Some ranges_doc) by reflexivity.
  split; [exact Hd|]. split.
  - apply (proj2 (classifier_init_outcome parse_prefix_v4 _ _ _ "eu-west-2") _ Hd).
    vm_compute. reflexivity.
  - apply (proj1 (classifier_init_outcome parse_prefix_v4 (Raise OSError) None
                    (fun _ => Ok ranges_doc) "eu-west-2")).
    exact I.
Defined.

End InitExamples.

Module GroupExamples.
Import Scanner Vocab Concrete ExtraConcrete.

(** C3, counterexample: two records of one group with 9007199254740000 and
    993 bytes add up to 2^53 + 1, and the event sent carries
    [float] of it, 2^53, not the sum. *)
Lemma quantity_rounded :
  sum_sizes (records big_env "big.log" (splitlines big_log)) = 9007199254740993 /\
  fst (process_log_file big_env "big.log") = Ok true /\
  map be_quantity (snd (process_log_file big_env "big.log")) = [9007199254740992].
Proof. split; [|split]; vm_compute; reflexivity. Qed.

End GroupExamples.

Module HostExamples.
Import Scanner Concrete.

(** C7, counterexample: for the host "ws.cluster.eodatahub-workspaces.org.uk"
    the workspace is "ws", the first label, not "cluster", the label just
    before the suffix; and the bare suffix as host gives the workspace
    "eodatahub-workspaces". *)
Lemma host_header_first_label :
  (exists r, process_log_line (fun _ => Ok REGION) tag_uuid
               (log_line_host "ws.cluster.eodatahub-workspaces.org.uk" "13:38:48" "398")
               "f.log" = Ok (Some r) /\ ev_workspace r = "ws"%string) /\
  (exists r, process_log_line (fun _ => Ok REGION) tag_uuid
               (log_line_host "eodatahub-workspaces.org.uk" "13:38:48" "398")
               "f.log" = Ok (Some r) /\ ev_workspace r = "eodatahub-workspaces"%string).
Proof. vm_compute. split; eexists; split; reflexivity. Qed.

End HostExamples.

Module StateProofs.
Import Scanner State Pipeline Vocab.



End StateProofs.

Module StateTheorem.
Import Scanner State Pipeline Vocab StateProofs.


End StateTheorem.

Module StateExamples.
Import Scanner State Pipeline Concrete.


End StateExamples.

Module PersistProofs.
Import Scanner State Pipeline.

Lemma py_eq_str k x : py_eq (JStr k) x = true -> x = JStr k.
Proof.
  destruct x; simpl; try discriminate. intros H. apply String.eqb_eq in H. subst. reflexivity.
Qed.

Lemma set_add_keeps x y s : In x s -> In x (set_add y s).
Proof.
  unfold set_add. destruct (existsb (py_eq y) s); [tauto|]. intros H. apply in_or_app. left. exact H.
Qed.

Lemma set_add_str k s : In (JStr k) (set_add (JStr k) s).
Proof.
  unfold set_add. destruct (existsb (py_eq (JStr k)) s) eqn:E.
  - apply existsb_exists in E. destruct E as (x & Hx & Heq).
    rewrite (py_eq_str _ _ Heq) in Hx. exact Hx.
  - apply in_or_app. right. left. reflexivity.
Qed.

Lemma set_add_only x y s : In x (set_add y s) -> In x s \/ x = y.
Proof.
  unfold set_add. destruct (existsb (py_eq y) s); [tauto|].
  intros H. apply in_app_or in H. destruct H as [H|[H|[]]]; [left; exact H|right; symmetry; exact H].
Qed.

Lemma exec_spec b : forall p,
  (forall x, In x p -> In x (snd (exec b p))) /\
  (forall k, In k (marked b p) -> In (JStr k) (snd (exec b p))) /\
  (forall x, In x (snd (exec b p)) -> In x p \/ exists k, In k (marked b p) /\ x = JStr k).
Proof.
  induction b as [| e | k next IH | k next IH]; intros p; simpl.
  - split; [tauto|]. split; [tauto|]. tauto.
  - split; [tauto|]. split; [tauto|]. tauto.
  - destruct (IH (mark_scanned k p)) as (Keep & Mark & Only). split; [|split].
    + intros x Hx. apply Keep. apply set_add_keeps. exact Hx.
    + intros k' [<-|Hk]; [apply Keep; apply set_add_str|apply Mark; exact Hk].
    + intros x Hx. destruct (Only x Hx) as [Hp|(k' & Hk & ->)].
      * destruct (set_add_only _ _ _ Hp) as [H| ->]; [left; exact H|].
        right. exists k. split; [left; reflexivity|reflexivity].
      * right. exists k'. split; [right; exact Hk|reflexivity].
  - exact (IH (already_scanned k p) p).
Qed.

End PersistProofs.

Module PersistTheorem.
Import Scanner State Pipeline PersistProofs.

(** C10: once [__enter__] has read the processed set [s0], the [with]
    block writes the file [{"processed": final}] whether its body finishes
    or raises, the body's outcome is propagated, and [final] holds every
    element of [s0], every key passed to [mark_scanned], and nothing else.
    [run] leaves the state file so written by its [with] block. *)
Theorem with_state_persists : forall f b s0,
  enter f = Ok s0 ->
  let final := snd (exec b s0) in
  with_state f b = (fst (exec b s0), exit_file final) /\
  (forall x, In x s0 -> In x final) /\
  (forall k, In k (marked b s0) -> In (JStr k) final) /\
  (forall x, In x final -> In x s0 \/ exists k, In k (marked b s0) /\ x = JStr k) /\
  (forall cfg env bucket files, list_log_files cfg bucket f = Ok files ->
     state_after (run cfg env bucket f) = snd (with_state f (run_body env files))).
Proof.
  intros f b s0 He final.
  destruct (exec_spec b s0) as (Keep & Mark & Only).
  split; [|split; [exact Keep|split; [exact Mark|split; [exact Only|]]]].
  - unfold with_state, final. rewrite He. destruct (exec b s0). reflexivity.
  - intros cfg env bucket files Hl. unfold run. rewrite Hl.
    destruct (with_state f (run_body env files)). reflexivity.
Qed.

End PersistTheorem.

Module PersistWitness.
Import Scanner State Pipeline Concrete PersistTheorem.

Lemma with_state_persists_witness :
  enter state_x = Ok [JStr "x"] /\
  with_state state_x (BMark "y" (BRaise OSError)) =
    (Raise OSError, exit_file [JStr "x"; JStr "y"]) /\
  In (JStr "y") (snd (exec (BMark "y" (BRaise OSError)) [JStr "x"])).
Proof.
  assert (He : enter state_x = Ok [JStr "x"]) by reflexivity.
  destruct (with_state_persists state_x (BMark "y" (BRaise OSError)) _ He)
    as (Hw & _ & Hmark & _ & _).
  split; [exact He|]. split; [exact Hw|].
  apply Hmark. left. reflexivity.
Defined.

End PersistWitness.

Module RetryExamples.
Import Scanner State Pipeline Concrete.

(** C1 (does not hold): the first run on a.log and b.log fails to publish the
    group of a.log and marks only b.log; the next run, with the producer
    fixed, lists nothing, because the listing starts after the greatest
    processed key "b.log", so a.log, which [already_scanned] would let
    through, is never read or re-published. *)
Theorem failed_key_not_relisted :
  let r1 := run cfg0 (test_env store_ab tag_uuid refuse_a) bucket_ab SMissing in
  let r2 := run cfg0 (test_env store_ab tag_uuid accept_all) bucket_ab (state_after r1) in
  outcome r1 = Ok tt /\
  state_after r1 = exit_file [JStr "b.log"] /\
  get_start_after_key (state_after r1) = JStr "b.log" /\
  filter (fun k => negb (already_scanned k [JStr "b.log"])) bucket_ab = ["a.log"]%string /\
  listed r2 = [] /\ candidates r2 = [] /\ sent r2 = [] /\
  state_after r2 = exit_file [JStr "b.log"].
Proof. vm_compute. repeat split. Qed.

(** C6 (does not hold): [download_file] re-raises, so a failed download of
    a.log ends the run: b.log is neither processed nor marked. An empty
    download of a.log, which [process_log_file] handles as a per-file
    failure, lets the run go on to b.log. *)
Theorem download_failure_aborts_run :
  let r := run cfg0 (test_env store_a_fails tag_uuid accept_all) bucket_ab SMissing in
  let r' := run cfg0 (test_env store_a_empty tag_uuid accept_all) bucket_ab SMissing in
  candidates r = ["a.log"; "b.log"]%string /\
  outcome r = Raise OSError /\ state_after r = exit_file [] /\ sent r = [] /\
  outcome r' = Ok tt /\ state_after r' = exit_file [JStr "b.log"] /\
  map be_uuid (sent r') = [tag_uuid "b.log-workspace1-EGRESS-REGION"].
Proof. vm_compute. repeat split. Qed.

End RetryExamples.

Module SetProofs.
Import State ExtraVocab.

Lemma py_eq_sym a b : py_eq a b = py_eq b a.
Proof.
  destruct a, b; simpl; try reflexivity.
  - destruct b, b0; reflexivity.
  - apply Z.eqb_sym.
  - apply String.eqb_sym.
Qed.

Lemma existsb_snoc x y l : existsb (py_eq x) (l ++ [y]) = existsb (py_eq x) l || py_eq x y.
Proof. rewrite existsb_app. simpl. rewrite orb_false_r. reflexivity. Qed.

Lemma distinct_snoc l x :
  py_distinct (l ++ [x]) = py_distinct l && negb (existsb (py_eq x) l).
Proof.
  induction l as [|y t IH]; simpl; [reflexivity|].
  rewrite IH, existsb_snoc, (py_eq_sym x y).
  destruct (existsb (py_eq y) t), (py_eq y x), (py_distinct t), (existsb (py_eq x) t);
    reflexivity.
Qed.

Lemma distinct_mid l1 x l2 :
  py_distinct (l1 ++ x :: l2) = true -> existsb (py_eq x) l1 = false.
Proof.
  induction l1 as [|y t IH]; simpl; [reflexivity|].
  intros H. apply andb_prop in H. destruct H as [H1 H2].
  rewrite (IH H2), orb_false_r, py_eq_sym.
  rewrite existsb_app in H1. simpl in H1.
  destruct (py_eq y x); [|reflexivity].
  rewrite orb_true_r in H1. discriminate H1.
Qed.

Lemma set_add_distinct x s : py_distinct s = true -> py_distinct (set_add x s) = true.
Proof.
  intros H. unfold set_add. destruct (existsb (py_eq x) s) eqn:E; [exact H|].
  rewrite distinct_snoc, H, E. reflexivity.
Qed.

Lemma set_add_hashable x s :
  hashable x = true -> forallb hashable s = true -> forallb hashable (set_add x s) = true.
Proof.
  intros Hx Hs. unfold set_add. destruct (existsb (py_eq x) s); [exact Hs|].
  rewrite forallb_app, Hs. simpl. rewrite Hx. reflexivity.
Qed.

Lemma fold_set_add_ok l : forall acc,
  py_distinct acc = true -> forallb hashable acc = true -> forallb hashable l = true ->
  py_distinct (fold_left (fun s x => set_add x s) l acc) = true /\
  forallb hashable (fold_left (fun s x => set_add x s) l acc) = true.
Proof.
  induction l as [|x t IH]; intros acc Hd Hh Hl; simpl; [split; assumption|].
  simpl in Hl. apply andb_prop in Hl. destruct Hl as [Hx Ht].
  apply IH; [apply set_add_distinct; exact Hd|apply set_add_hashable; assumption|exact Ht].
Qed.

Lemma fold_set_add_id l : forall acc,
  py_distinct (acc ++ l) = true -> fold_left (fun s x => set_add x s) l acc = acc ++ l.
Proof.
  induction l as [|x t IH]; intros acc H; simpl; [rewrite app_nil_r; reflexivity|].
  unfold set_add at 2. rewrite (distinct_mid _ _ _ H).
  rewrite IH; [rewrite <- app_assoc; reflexivity|]. rewrite <- app_assoc. exact H.
Qed.

Lemma py_set_ok l :
  forallb hashable l = true -> exists s, py_set l = Ok s /\
    py_distinct s = true /\ forallb hashable s = true.
Proof.
  intros Hl. unfold py_set. rewrite Hl. eexists. split; [reflexivity|].
  apply fold_set_add_ok; [reflexivity|reflexivity|exact Hl].
Qed.

Lemma py_set_id l :
  py_distinct l = true -> forallb hashable l = true -> py_set l = Ok l.
Proof.
  intros Hd Hh. unfold py_set. rewrite Hh. rewrite (fold_set_add_id l []); [reflexivity|exact Hd].
Qed.

Lemma enter_set f s0 :
  enter f = Ok s0 -> py_distinct s0 = true /\ forallb hashable s0 = true.
Proof.
  destruct f as [|[d|]].
  - intros H. injection H as <-. split; reflexivity.
  - destruct d as [| | | | |fs]; try discriminate. unfold enter, bind.
    destruct (py_iter (dict_get_default "processed" (JArr []) fs)) as [l|e];
      [|discriminate].
    unfold py_set. destruct (forallb hashable l) eqn:Hl; [|discriminate].
    intros H. injection H as <-. apply fold_set_add_ok; [reflexivity|reflexivity|exact Hl].
  - intros H. injection H as <-. split; reflexivity.
Qed.

Lemma exec_set b : forall p,
  py_distinct p = true -> forallb hashable p = true ->
  py_distinct (snd (exec b p)) = true /\ forallb hashable (snd (exec b p)) = true.
Proof.
  induction b as [| e | k next IH | k next IH]; intros p Hd Hh; simpl; auto.
  apply IH; [apply set_add_distinct; exact Hd|apply set_add_hashable; [reflexivity|exact Hh]].
Qed.

Lemma enter_exit_file l : enter (exit_file l) = py_set l.
Proof. unfold enter, exit_file. simpl. unfold bind. reflexivity. Qed.

End SetProofs.

Module StateExtra.
Import State ExtraVocab SetProofs.

(** What [__exit__] writes, the next [__enter__] reads back: after a [with]
    block whose [__enter__] read [s0], opening the file again gives the set
    the block ended with, whether the body finished or raised; when
    [__enter__] raised, the file still makes it raise the same way. *)
Theorem state_round_trip : forall f b,
  enter (snd (with_state f b)) =
  match enter f with
  | Ok s0 => Ok (snd (exec b s0))
  | Raise e => Raise e
  end.
Proof.
  intros f b. unfold with_state.
  destruct (enter f) as [s0|e] eqn:He.
  - destruct (enter_set _ _ He) as [Hd Hh].
    destruct (exec_set b s0 Hd Hh) as [Hd' Hh'].
    destruct (exec b s0) as [r final]. simpl in *.
    rewrite enter_exit_file. apply py_set_id; assumption.
  - destruct f as [|p]; simpl; [discriminate He|exact He].
Qed.

(** [mark_scanned] then [already_scanned]: a marked key is reported
    scanned, any other key as before, and marking a key twice leaves the
    set as marking it once. *)
Theorem mark_then_scanned : forall k k' p,
  already_scanned k' (mark_scanned k p) = String.eqb k' k || already_scanned k' p /\
  mark_scanned k (mark_scanned k p) = mark_scanned k p.
Proof.
  intros k k' p. unfold already_scanned, mark_scanned, set_add. split.
  - destruct (existsb (py_eq (JStr k)) p) eqn:E.
    + destruct (String.eqb k' k) eqn:Ek; [|reflexivity].
      apply String.eqb_eq in Ek. subst k'. exact E.
    + rewrite existsb_snoc. simpl. apply orb_comm.
  - destruct (existsb (py_eq (JStr k)) p) eqn:E; [rewrite E; reflexivity|].
    rewrite existsb_snoc. simpl. rewrite String.eqb_refl, orb_true_r. reflexivity.
Qed.

End StateExtra.

Module RunProofs.
Import Scanner State Pipeline.

Lemma filter_new_exec files : forall (k : list string -> body) p,
  exec (filter_new files k) p = exec (k (filter (fun f => negb (already_scanned f p)) files)) p /\
  marked (filter_new files k) p = marked (k (filter (fun f => negb (already_scanned f p)) files)) p.
Proof.
  induction files as [|f t IH]; intros k p; simpl; [split; reflexivity|].
  destruct (IH (fun rest => k (if already_scanned f p then rest else f :: rest)) p) as [E M].
  rewrite E, M. destruct (already_scanned f p); simpl; split; reflexivity.
Qed.

Lemma loop_marked env keys : forall p k,
  In k (marked (process_loop env keys) p) -> In k keys /\ fst (process_log_file env k) = Ok true.
Proof.
  induction keys as [|key rest IH]; intros p k; simpl; [intros []|].
  destruct (fst (process_log_file env key)) as [[|]|e] eqn:E; simpl.
  - intros [<-|H]; [split; [left; reflexivity|exact E]|].
    destruct (IH _ _ H) as [H1 H2]. split; [right; exact H1|exact H2].
  - intros H. destruct (IH _ _ H) as [H1 H2]. split; [right; exact H1|exact H2].
  - intros [].
Qed.

Lemma loop_ok env keys : forall p,
  fst (exec (process_loop env keys) p) = Ok tt <->
  forall k, In k keys -> exists b, fst (process_log_file env k) = Ok b.
Proof.
  induction keys as [|key rest IH]; intros p; simpl.
  - split; [intros _ k []|reflexivity].
  - destruct (fst (process_log_file env key)) as [[|]|e] eqn:E; simpl.
    + rewrite IH. split.
      * intros H k [<-|Hk]; [exists true; exact E|exact (H k Hk)].
      * intros H k Hk. apply H. right. exact Hk.
    + rewrite IH. split.
      * intros H k [<-|Hk]; [exists false; exact E|exact (H k Hk)].
      * intros H k Hk. apply H. right. exact Hk.
    + split; [discriminate|]. intros H. destruct (H key (or_introl eq_refl)) as [b Hb].
      congruence.
Qed.

Lemma loop_marks_all env keys : forall p,
  fst (exec (process_loop env keys) p) = Ok tt ->
  forall k, In k keys -> fst (process_log_file env k) = Ok true ->
  In k (marked (process_loop env keys) p).
Proof.
  induction keys as [|key rest IH]; intros p Hok k Hk Ht; simpl in *; [destruct Hk|].
  destruct (fst (process_log_file env key)) as [[|]|e] eqn:E; simpl in *.
  - destruct Hk as [<-|Hk]; [left; reflexivity|right; exact (IH _ Hok k Hk Ht)].
  - destruct Hk as [<-|Hk]; [congruence|exact (IH _ Hok k Hk Ht)].
  - discriminate Hok.
Qed.

Lemma loop_raise env keys : forall p e,
  fst (exec (process_loop env keys) p) = Raise e ->
  exists pre k post, keys = pre ++ k :: post /\ fst (process_log_file env k) = Raise e /\
    forall k', In k' pre -> exists b, fst (process_log_file env k') = Ok b.
Proof.
  induction keys as [|key rest IH]; intros p e H; simpl in H; [discriminate H|].
  destruct (fst (process_log_file env key)) as [[|]|e'] eqn:E; simpl in H.
  - destruct (IH _ _ H) as (pre & k & post & -> & Hk & Hpre).
    exists (key :: pre), k, post. split; [reflexivity|]. split; [exact Hk|].
    intros k' [<-|Hk']; [exists true; exact E|exact (Hpre k' Hk')].
  - destruct (IH _ _ H) as (pre & k & post & -> & Hk & Hpre).
    exists (key :: pre), k, post. split; [reflexivity|]. split; [exact Hk|].
    intros k' [<-|Hk']; [exists false; exact E|exact (Hpre k' Hk')].
  - injection H as ->. exists [], key, rest. split; [reflexivity|]. split; [exact E|].
    intros k' [].
Qed.

End RunProofs.

Module RunExtra.
Import Scanner State Pipeline PersistProofs RunProofs.

(** [BillingScanner.run], once the listing and [__enter__] succeed: the
    candidates are the listed keys not already in the state, in listing
    order; the state written keeps every key it held and adds only
    candidates whose [process_log_file] returned True; the run finishes
    normally exactly when no candidate's processing raised, and then every
    candidate processed with True is in the state; otherwise the run
    raises the exception of the first candidate that raised. *)
Theorem run_composition : forall cfg env bucket f s0 files,
  enter f = Ok s0 ->
  list_log_files cfg bucket f = Ok files ->
  let r := run cfg env bucket f in
  listed r = files /\
  candidates r = filter (fun k => negb (already_scanned k s0)) files /\
  exists final, state_after r = exit_file final /\
    (forall x, In x s0 -> In x final) /\
    (forall x, In x final -> In x s0 \/
       exists k, x = JStr k /\ In k (candidates r) /\ fst (process_log_file env k) = Ok true) /\
    (outcome r = Ok tt <->
       forall k, In k (candidates r) -> exists b, fst (process_log_file env k) = Ok b) /\
    (outcome r = Ok tt -> forall k, In k (candidates r) ->
       fst (process_log_file env k) = Ok true -> In (JStr k) final) /\
    (forall e, outcome r = Raise e ->
       exists pre k post, candidates r = pre ++ k :: post /\
         fst (process_log_file env k) = Raise e /\
         forall k', In k' pre -> exists b, fst (process_log_file env k') = Ok b).
Proof.
  intros cfg env bucket f s0 files He Hl r.
  set (cands := filter (fun k => negb (already_scanned k s0)) files).
  destruct (filter_new_exec files (process_loop env) s0) as [Ex Mk].
  fold cands in Ex, Mk.
  destruct (exec_spec (process_loop env cands) s0) as (Keep & Mark & Only).
  assert (Hr : r = {| outcome := fst (exec (process_loop env cands) s0);
                      state_after := exit_file (snd (exec (process_loop env cands) s0));
                      listed := files; candidates := cands;
                      sent := sent_loop env cands |}).
  { unfold r, run. rewrite Hl. unfold with_state. rewrite He.
    unfold run_body. rewrite Ex. fold cands.
    destruct (exec (process_loop env cands) s0). reflexivity. }
  rewrite Hr. cbn [listed candidates outcome state_after].
  split; [reflexivity|]. split; [reflexivity|].
  exists (snd (exec (process_loop env cands) s0)). split; [reflexivity|].
  split; [exact Keep|]. split; [|split; [|split]].
  - intros x Hx. destruct (Only x Hx) as [H|(k & Hk & ->)]; [left; exact H|right].
    destruct (loop_marked _ _ _ _ Hk) as [H1 H2]. exists k. split; [reflexivity|].
    split; assumption.
  - apply loop_ok.
  - intros Hok k Hk Ht. apply Mark. exact (loop_marks_all _ _ _ Hok k Hk Ht).
  - intros e H. exact (loop_raise _ _ _ _ H).
Qed.

End RunExtra.

Module RunExtraWitness.
Import Scanner State Pipeline Concrete RunExtra.

Lemma run_composition_witness :
  enter SMissing = Ok [] /\ list_log_files cfg0 bucket_ab SMissing = Ok bucket_ab /\
  candidates (run cfg0 (test_env store_ab tag_uuid refuse_a) bucket_ab SMissing) = bucket_ab /\
  outcome (run cfg0 (test_env store_ab tag_uuid refuse_a) bucket_ab SMissing) = Ok tt.
Proof.
  assert (H1 : enter SMissing = Ok []) by reflexivity.
  assert (H2 : list_log_files cfg0 bucket_ab SMissing = Ok bucket_ab)
    by (vm_compute; reflexivity).
  destruct (run_composition cfg0 (test_env store_ab tag_uuid refuse_a) bucket_ab
              SMissing [] bucket_ab H1 H2) as (_ & Hc & final & _ & _ & _ & Hok & _).
  split; [exact H1|]. split; [exact H2|]. split; [rewrite Hc; reflexivity|].
  apply Hok. rewrite Hc. intros k Hk. vm_compute in Hk.
  destruct Hk as [<-|[<-|[]]]; eexists; vm_compute; reflexivity.
Defined.

End RunExtraWitness.

Module OrderProofs.

Lemma ltb_lt a b : String.ltb a b = true <-> OrderedTypeEx.String_as_OT.lt a b.
Proof.
  rewrite <- OrderedTypeEx.String_as_OT.cmp_lt. unfold String.ltb.
  unfold OrderedTypeEx.String_as_OT.cmp. destruct (String.compare a b); split; congruence.
Qed.

Lemma str_lt_trans a b c :
  String.ltb a b = true -> String.ltb b c = true -> String.ltb a c = true.
Proof. rewrite !ltb_lt. apply OrderedTypeEx.String_as_OT.lt_trans. Qed.

Lemma str_ltb_irrefl a : String.ltb a a = false.
Proof.
  unfold String.ltb.
  replace (String.compare a a) with Eq; [reflexivity|].
  symmetry. apply (OrderedTypeEx.String_as_OT.cmp_eq a a). reflexivity.
Qed.

Lemma str_not_lt a b : String.ltb a b = false -> a = b \/ String.ltb b a = true.
Proof.
  unfold String.ltb. intros H.
  pose proof (OrderedTypeEx.String_as_OT.cmp_antisym a b) as Ha.
  unfold OrderedTypeEx.String_as_OT.cmp in Ha.
  destruct (String.compare a b) eqn:E; try discriminate H.
  - left. apply OrderedTypeEx.String_as_OT.cmp_eq. exact E.
  - right. destruct (String.compare b a); simpl in Ha; try discriminate Ha. reflexivity.
Qed.

(** [ltb m k = false] reads "k <= m". *)
Lemma str_le_trans m k j :
  String.ltb m k = false -> String.ltb k j = false -> String.ltb m j = false.
Proof.
  intros H1 H2. destruct (String.ltb m j) eqn:E; [|reflexivity].
  destruct (str_not_lt _ _ H1) as [<-|H]; [congruence|].
  rewrite (str_lt_trans _ _ _ H E) in H2. discriminate H2.
Qed.

Lemma str_lt_le_trans p m k :
  String.ltb m p = false -> String.ltb m k = true -> String.ltb p k = true.
Proof.
  intros H1 H2. destruct (str_not_lt _ _ H1) as [<-|H]; [exact H2|].
  exact (str_lt_trans _ _ _ H H2).
Qed.

Lemma ltb_empty p : p <> ""%string -> String.ltb "" p = true.
Proof. destruct p; [congruence|reflexivity]. Qed.

End OrderProofs.

Module ListingProofs.
Import State Pipeline OrderProofs.

Lemma fold_max t : forall best, exists m,
  fold_left (fun acc item => best <- acc;; gt <- py_lt best item;;
                             Ok (if gt then item else best)) (map JStr t) (Ok (JStr best))
    = Ok (JStr m) /\
  (m = best \/ In m t) /\ String.ltb m best = false /\
  forall k, In k t -> String.ltb m k = false.
Proof.
  induction t as [|y t IH]; intros best; simpl.
  - exists best. split; [reflexivity|]. split; [left; reflexivity|].
    split; [apply str_ltb_irrefl|intros k []].
  - destruct (String.ltb best y) eqn:E.
    + destruct (IH y) as (m & Hm & Hin & Hy & Hall). exists m. split; [exact Hm|].
      split; [destruct Hin as [->|H]; [right; left; reflexivity|right; right; exact H]|].
      split.
      * destruct (String.ltb m best) eqn:Eb; [|reflexivity].
        rewrite (str_lt_trans _ _ _ Eb E) in Hy. discriminate Hy.
      * intros k [<-|Hk]; [exact Hy|exact (Hall k Hk)].
    + destruct (IH best) as (m & Hm & Hin & Hb & Hall). exists m. split; [exact Hm|].
      split; [destruct Hin as [->|H]; [left; reflexivity|right; right; exact H]|].
      split; [exact Hb|].
      intros k [<-|Hk]; [exact (str_le_trans _ _ _ Hb E)|exact (Hall k Hk)].
Qed.

Lemma start_after_value fs keys :
  dict_get_default "processed" (JArr []) fs = JArr (map JStr keys) ->
  (keys = [] /\ get_start_after_key (SText (Some (JObj fs))) = JStr "") \/
  (exists m, get_start_after_key (SText (Some (JObj fs))) = JStr m /\ In m keys /\
     forall k, In k keys -> String.ltb m k = false).
Proof.
  intros H. unfold get_start_after_key. rewrite H.
  destruct keys as [|x t]; [left; split; reflexivity|right].
  destruct (fold_max t x) as (m & Hm & Hin & Hx & Hall).
  exists m. simpl truthy. cbv iota. unfold py_max. simpl py_iter. unfold bind at 1.
  cbn [map]. rewrite Hm. split; [reflexivity|].
  split; [destruct Hin as [->|Hin]; [left; reflexivity|right; exact Hin]|].
  intros k [<-|Hk]; [exact Hx|exact (Hall k Hk)].
Qed.

End ListingProofs.

Module ListingExtra.
Import State Pipeline OrderProofs ListingProofs.

(** [get_start_after_key]: with no state file, an undecodable one, or an
    empty "processed" list it returns ""; when "processed" is a non-empty
    list of keys it returns one of them that no other exceeds, the
    lexicographically greatest. *)
Theorem start_after_greatest : forall fs keys,
  dict_get_default "processed" (JArr []) fs = JArr (map JStr keys) ->
  get_start_after_key SMissing = JStr "" /\ get_start_after_key (SText None) = JStr "" /\
  (keys = [] -> get_start_after_key (SText (Some (JObj fs))) = JStr "") /\
  (keys <> [] -> exists m, get_start_after_key (SText (Some (JObj fs))) = JStr m /\
     In m keys /\ forall k, In k keys -> String.ltb m k = false).
Proof.
  intros fs keys H. split; [reflexivity|]. split; [reflexivity|].
  destruct (start_after_value fs keys H) as [[Hk Hs]|(m & Hm & Hin & Hall)].
  - split; [intros _; exact Hs|]. intros Hne. contradiction.
  - split; [|intros _; exists m; split; [exact Hm|split; assumption]].
    intros ->. destruct Hin.
Qed.

(** [list_log_files] with a state file listing the processed keys [keys]:
    a key is listed exactly when it is in the bucket, starts with the
    prefix (the log folder, followed by the distribution id and a dot when
    one is set) and is greater than every non-empty processed key. So a
    run never lists a processed key again, nor any key sorting before one. *)
Theorem listing_after_processed : forall cfg bucket fs keys files,
  dict_get_default "processed" (JArr []) fs = JArr (map JStr keys) ->
  list_log_files cfg bucket (SText (Some (JObj fs))) = Ok files ->
  let prefix := if String.eqb (DISTRIBUTION_ID cfg) "" then LOG_FOLDER cfg
                else LOG_FOLDER cfg +++ DISTRIBUTION_ID cfg +++ "." in
  forall k, In k files <->
    In k bucket /\ String.prefix prefix k = true /\
    forall p, In p keys -> p <> ""%string -> String.ltb p k = true.
Proof.
  intros cfg bucket fs keys files H Hl prefix k.
  unfold list_log_files in Hl. fold prefix in Hl.
  destruct (start_after_value fs keys H) as [[-> Hs]|(m & Hm & Hin & Hall)].
  - rewrite Hs in Hl. simpl in Hl. injection Hl as <-. rewrite filter_In.
    split; [intros [H1 H2]; split; [exact H1|split; [exact H2|intros p []]]|].
    intros (H1 & H2 & _). split; assumption.
  - rewrite Hm in Hl. unfold list_files in Hl. simpl truthy in Hl.
    destruct (String.eqb m "") eqn:Em; simpl in Hl; injection Hl as <-; rewrite filter_In.
    + apply String.eqb_eq in Em. subst m.
      split; [|intros (H1 & H2 & _); split; assumption].
      intros [H1 H2]. split; [exact H1|split; [exact H2|]].
      intros p Hp Hne. pose proof (Hall p Hp) as Hle.
      rewrite (ltb_empty p Hne) in Hle. discriminate Hle.
    + apply String.eqb_neq in Em. split.
      * intros [H1 H2]. apply andb_prop in H2. destruct H2 as [H2 H3].
        split; [exact H1|split; [exact H2|]].
        intros p Hp _. exact (str_lt_le_trans _ _ _ (Hall p Hp) H3).
      * intros (H1 & H2 & H3). split; [exact H1|]. rewrite H2. exact (H3 m Hin Em).
Qed.

End ListingExtra.

Module ListingExtraWitness.
Import State Pipeline Concrete ListingExtra.
Local Open Scope string_scope.

Lemma start_after_greatest_witness :
  dict_get_default "processed" (JArr [])
    [("processed"%string, JArr [JStr "b.log"; JStr "a.log"])] = JArr (map JStr ["b.log"; "a.log"]) /\
  get_start_after_key (SText (Some (JObj [("processed"%string, JArr [JStr "b.log"; JStr "a.log"])])))
    = JStr "b.log".
Proof.
  assert (H : dict_get_default "processed" (JArr [])
                [("processed"%string, JArr [JStr "b.log"; JStr "a.log"])]
              = JArr (map JStr ["b.log"; "a.log"])) by reflexivity.
  split; [exact H|].
  destruct (start_after_greatest _ _ H) as (_ & _ & _ & Hne).
  destruct (Hne ltac:(discriminate)) as (m & Hm & Hin & Hall).
  rewrite Hm. f_equal.
  destruct Hin as [<-|[<-|[]]]; [reflexivity|].
  specialize (Hall "b.log"%string (or_introl eq_refl)). discriminate Hall.
Defined.

Lemma listing_after_processed_witness :
  dict_get_default "processed" (JArr []) [("processed"%string, JArr [JStr "b.log"])]
    = JArr (map JStr ["b.log"]) /\
  list_log_files cfg0 ["a.log"; "b.log"; "c.log"]
    (SText (Some (JObj [("processed"%string, JArr [JStr "b.log"])]))) = Ok ["c.log"] /\
  ~ In "a.log"%string ["c.log"].
Proof.
  assert (H1 : dict_get_default "processed" (JArr []) [("processed"%string, JArr [JStr "b.log"])]
               = JArr (map JStr ["b.log"])) by reflexivity.
  assert (H2 : list_log_files cfg0 ["a.log"; "b.log"; "c.log"]
                 (SText (Some (JObj [("processed"%string, JArr [JStr "b.log"])])))
               = Ok ["c.log"]) by (vm_compute; reflexivity).
  split; [exact H1|]. split; [exact H2|].
  intros Hin. apply (listing_after_processed _ _ _ _ _ H1 H2) in Hin.
  destruct Hin as (_ & _ & Hlt).
  specialize (Hlt "b.log"%string (or_introl eq_refl) ltac:(discriminate)).
  discriminate Hlt.
Defined.

End ListingExtraWitness.

Module EmitProofs.
Import Scanner ExtraVocab IdentityProofs.

Lemma add_record_set env a ev a' :
  add_record env a ev = Ok a' ->
  exists g, a' = agg_set (ev_aggregation_key ev) g a /\ timed (ev_aggregation_key ev, g).
Proof.
  intros H. unfold add_record, bind in H. cbv zeta in H.
  destruct (fromisoformat env (remove_char "Z"%char (ev_timestamp ev))) as [ts|];
    [|discriminate H].
  destruct (match agg_lookup (ev_aggregation_key ev) a with
            | Some g => g | None => empty_group end) as [s e0 l0 w0 k0].
  cbn [g_earliest g_latest g_data_size] in H.
  destruct e0 as [e|]; [destruct (dt_lt ts e) as [b1|]; [|discriminate H]|];
  cbv beta iota in H;
  (destruct l0 as [l|]; [destruct (dt_lt l ts) as [b2|]; [|discriminate H]|]);
  cbv beta iota in H; injection H as <-; eexists;
  (split; [reflexivity|do 2 eexists; split; reflexivity]).
Qed.

Lemma aggregate_timed env key lines : forall a0 a,
  Forall timed a0 -> aggregate_lines env key lines a0 = Ok a -> Forall timed a.
Proof.
  induction lines as [|line rest IH]; intros a0 a Ht H.
  - simpl in H. injection H as <-. exact Ht.
  - cbn [aggregate_lines] in H. unfold bind in H.
    destruct (process_log_line (classify env) (uuid5 env) line key) as [[ev|]|e];
      [| |discriminate H].
    + destruct (add_record env a0 ev) as [a1|] eqn:Ha; [|discriminate H].
      apply (IH a1); [|exact H].
      destruct (add_record_set _ _ _ _ Ha) as (g & -> & Hg).
      apply AggregateProofs.agg_set_forall; assumption.
    + eapply IH; eauto.
Qed.

Lemma make_event_timed env kg :
  timed kg -> make_event env (fst kg) (snd kg) =
    (quantity <- py_float (g_data_size (snd kg));;
     match g_earliest (snd kg), g_latest (snd kg) with
     | Some e, Some l =>
         Ok {| be_uuid := uuid5 env (fst kg); be_event_start := isoformat e +++ "Z";
               be_event_end := isoformat l +++ "Z"; be_sku := g_sku (snd kg);
               be_workspace := g_workspace (snd kg); be_quantity := quantity |}
     | _, _ => Raise AttributeError
     end).
Proof.
  intros (e & l & He & Hl). unfold make_event, of_option, bind. rewrite He, Hl.
  reflexivity.
Qed.

Lemma make_event_ok env kg q :
  timed kg -> py_float (g_data_size (snd kg)) = Ok q ->
  exists be, make_event env (fst kg) (snd kg) = Ok be.
Proof.
  intros Ht Hq. pose proof Ht as (e & l & He & Hl).
  rewrite (make_event_timed env kg Ht), Hq. simpl. rewrite He, Hl. eexists; reflexivity.
Qed.

Lemma make_event_overflow env kg e :
  timed kg -> py_float (g_data_size (snd kg)) = Raise e ->
  make_event env (fst kg) (snd kg) = Raise e.
Proof.
  intros Ht Hq. rewrite (make_event_timed env kg Ht), Hq. reflexivity.
Qed.

Lemma events_exist env a :
  Forall timed a ->
  (forall kg, In kg a -> exists q, py_float (g_data_size (snd kg)) = Ok q) ->
  exists evs, Forall2 (fun kg be => make_event env (fst kg) (snd kg) = Ok be) a evs.
Proof.
  induction 1 as [|kg t Hkg Ht IH]; intros Hq.
  - exists []. constructor.
  - destruct (Hq kg (or_introl eq_refl)) as [q Hkq].
    destruct (make_event_ok env kg q Hkg Hkq) as [be Hbe].
    destruct IH as [evs Hevs]; [intros kg' H; apply Hq; right; exact H|].
    exists (be :: evs). constructor; assumption.
Qed.

Section Emit.
Variable env : collab.

Lemma emit_all a evs :
  Forall2 (fun kg be => make_event env (fst kg) (snd kg) = Ok be) a evs ->
  (forall be, In be evs -> send env be = Ok tt) -> emit_groups env a = (Ok true, evs).
Proof.
  induction 1 as [|[k g] be t evs Hm Hrest IH]; intros Hs; [reflexivity|].
  simpl in Hm |- *. rewrite Hm, (Hs be (or_introl eq_refl)).
  rewrite IH by (intros x Hx; apply Hs; right; exact Hx). reflexivity.
Qed.

Lemma emit_refused a evs :
  Forall2 (fun kg be => make_event env (fst kg) (snd kg) = Ok be) a evs ->
  forall pre be post e, evs = pre ++ be :: post ->
  (forall x, In x pre -> send env x = Ok tt) -> send env be = Raise e ->
  emit_groups env a = (Ok false, pre).
Proof.
  induction 1 as [|[k g] be0 t evs Hm Hrest IH]; intros pre be post e Hevs Hpre Hbe.
  - destruct pre; discriminate Hevs.
  - simpl in Hm |- *. rewrite Hm. destruct pre as [|x pre'].
    + injection Hevs as -> _. rewrite Hbe. reflexivity.
    + injection Hevs as -> Hevs. rewrite (Hpre x (or_introl eq_refl)).
      rewrite (IH pre' be post e Hevs); [reflexivity| |exact Hbe].
      intros y Hy. apply Hpre. right. exact Hy.
Qed.

Lemma emit_no_raise a evs :
  Forall2 (fun kg be => make_event env (fst kg) (snd kg) = Ok be) a evs ->
  exists b sent, emit_groups env a = (Ok b, sent).
Proof.
  induction 1 as [|[k g] be t evs Hm Hrest IH]; [eexists; eexists; reflexivity|].
  simpl in Hm |- *. rewrite Hm. destruct (send env be); [|eexists; eexists; reflexivity].
  destruct IH as (b & sent & ->). eexists; eexists; reflexivity.
Qed.

Lemma emit_raise pre evs :
  Forall2 (fun kg be => make_event env (fst kg) (snd kg) = Ok be) pre evs ->
  (forall be, In be evs -> send env be = Ok tt) ->
  forall k g post e, make_event env k g = Raise e ->
  emit_groups env (pre ++ (k, g) :: post) = (Raise e, evs).
Proof.
  induction 1 as [|[k0 g0] be t evs Hm Hrest IH]; intros Hs k g post e He; simpl.
  - rewrite He. reflexivity.
  - simpl in Hm. rewrite Hm, (Hs be (or_introl eq_refl)).
    rewrite (IH (fun x Hx => Hs x (or_intror Hx)) k g post e He). reflexivity.
Qed.

End Emit.

Lemma process_log_file_groups env key content a :
  download_file env key = Ok content -> content <> ""%string ->
  aggregate_lines env key (splitlines content) [] = Ok a ->
  process_log_file env key = emit_groups env a.
Proof.
  intros Hd Hne Ha. unfold process_log_file. rewrite Hd.
  destruct (String.eqb content "") eqn:E; [apply String.eqb_eq in E; congruence|].
  rewrite Ha. reflexivity.
Qed.

End EmitProofs.

Module EmitExtra.
Import Scanner EmitProofs.

(** Emission of [process_log_file]: once the download gives a non-empty
    text, its lines aggregate and every group's total converts to a float,
    every group yields its event (the events follow the groups' order), and
    the file's outcome is decided by the producer alone: all events
    accepted gives True with all of them sent; a first refusal gives False
    with exactly the events before it sent, and the groups after it are not
    tried; no exception escapes. *)
Theorem process_log_file_emission : forall env key content a,
  download_file env key = Ok content -> content <> ""%string ->
  aggregate_lines env key (splitlines content) [] = Ok a ->
  (forall kg, In kg a -> exists q, py_float (g_data_size (snd kg)) = Ok q) ->
  exists evs,
    Forall2 (fun kg be => make_event env (fst kg) (snd kg) = Ok be) a evs /\
    ((forall be, In be evs -> send env be = Ok tt) -> process_log_file env key = (Ok true, evs)) /\
    (forall pre be post e, evs = pre ++ be :: post ->
       (forall x, In x pre -> send env x = Ok tt) -> send env be = Raise e ->
       process_log_file env key = (Ok false, pre)) /\
    (exists b sent, process_log_file env key = (Ok b, sent)).
Proof.
  intros env key content a Hd Hne Ha Hq.
  rewrite (process_log_file_groups env key content a Hd Hne Ha).
  destruct (events_exist env a (aggregate_timed env key _ [] a (Forall_nil _) Ha) Hq)
    as [evs Hevs].
  exists evs. split; [exact Hevs|]. split; [|split].
  - apply emit_all. exact Hevs.
  - apply emit_refused. exact Hevs.
  - apply emit_no_raise with (evs := evs). exact Hevs.
Qed.

(** The float conversion in [process_log_file]: when a group's total has
    no float (its nearest double reaches 2^1024) and the groups before it
    convert and their events are accepted, [process_log_file] raises
    OverflowError after sending exactly those earlier events; the groups
    after it are not tried. *)
Theorem process_log_file_overflow : forall env key content a pre k g post,
  download_file env key = Ok content -> content <> ""%string ->
  aggregate_lines env key (splitlines content) [] = Ok a ->
  a = pre ++ (k, g) :: post ->
  py_float (g_data_size g) = Raise OverflowError ->
  (forall kg, In kg pre -> exists q, py_float (g_data_size (snd kg)) = Ok q) ->
  exists evs,
    Forall2 (fun kg be => make_event env (fst kg) (snd kg) = Ok be) pre evs /\
    ((forall be, In be evs -> send env be = Ok tt) ->
     process_log_file env key = (Raise OverflowError, evs)).
Proof.
  intros env key content a pre k g post Hd Hne Ha Hsplit Hov Hq.
  pose proof (aggregate_timed env key _ [] a (Forall_nil _) Ha) as Ht.
  rewrite Hsplit in Ht. apply Forall_app in Ht. destruct Ht as [Hpre Hkg].
  inversion Hkg as [|x y Hkg' _]; subst.
  destruct (events_exist env pre Hpre Hq) as [evs Hevs].
  exists evs. split; [exact Hevs|]. intros Hs.
  rewrite (process_log_file_groups env key content _ Hd Hne Ha).
  apply (emit_raise env pre evs Hevs Hs).
  exact (make_event_overflow env (k, g) OverflowError Hkg' Hov).
Qed.

End EmitExtra.

Module KeyOrderProofs.
Import Scanner ExtraVocab.

Lemma agg_set_keys k g a :
  map fst (agg_set k g a) =
  if existsb (String.eqb k) (map fst a) then map fst a else map fst a ++ [k].
Proof.
  induction a as [|[k' g'] t IH]; [reflexivity|]. simpl.
  rewrite (String.eqb_sym k k'). destruct (String.eqb k' k) eqn:E; simpl.
  - apply String.eqb_eq in E. subst k'. reflexivity.
  - rewrite IH. destruct (existsb (String.eqb k) (map fst t)); reflexivity.
Qed.

Lemma first_occurrences_ext ks : forall s1 s2,
  (forall x, existsb (String.eqb x) s1 = existsb (String.eqb x) s2) ->
  first_occurrences s1 ks = first_occurrences s2 ks.
Proof.
  induction ks as [|k t IH]; intros s1 s2 Hs; [reflexivity|]. simpl.
  rewrite (Hs k). destruct (existsb (String.eqb k) s2).
  - apply IH. exact Hs.
  - f_equal. apply IH. intros x. simpl. rewrite Hs. reflexivity.
Qed.

Lemma aggregate_keys env key lines : forall a0 a,
  aggregate_lines env key lines a0 = Ok a ->
  map fst a = map fst a0 ++
    first_occurrences (map fst a0) (map ev_aggregation_key (records env key lines)).
Proof.
  induction lines as [|line rest IH]; intros a0 a H.
  - simpl in H. injection H as <-. simpl. rewrite app_nil_r. reflexivity.
  - cbn [aggregate_lines records] in *. unfold bind in H.
    destruct (process_log_line (classify env) (uuid5 env) line key) as [[ev|]|e];
      [| |discriminate H].
    + destruct (add_record env a0 ev) as [a1|] eqn:Ha; [|discriminate H].
      rewrite (IH a1 a H). destruct (IdentityProofs.add_record_shape _ _ _ _ Ha) as (g & -> & _).
      rewrite agg_set_keys. simpl.
      destruct (existsb (String.eqb (ev_aggregation_key ev)) (map fst a0)); [reflexivity|].
      rewrite <- app_assoc. simpl. f_equal. f_equal. apply first_occurrences_ext.
      intros x. rewrite existsb_app. simpl. rewrite orb_false_r, orb_comm. reflexivity.
    + apply IH. exact H.
Qed.

Lemma first_occurrences_nodup ks : forall seen,
  NoDup (first_occurrences seen ks) /\
  (forall x, In x (first_occurrences seen ks) -> existsb (String.eqb x) seen = false).
Proof.
  induction ks as [|k t IH]; intros seen; simpl.
  - split; [constructor|intros _ []].
  - destruct (existsb (String.eqb k) seen) eqn:Ek; [apply IH|].
    destruct (IH (k :: seen)) as [Hnd Hnot]. split.
    + constructor; [|exact Hnd].
      intros Hin. specialize (Hnot k Hin). simpl in Hnot.
      rewrite String.eqb_refl in Hnot. discriminate Hnot.
    + intros x [<-|Hin]; [exact Ek|].
      specialize (Hnot x Hin). simpl in Hnot. apply orb_false_iff in Hnot. apply Hnot.
Qed.

End KeyOrderProofs.

Module KeyOrderExtra.
Import Scanner ExtraVocab KeyOrderProofs.

(** Group order of [process_log_file]: the aggregation holds one group per
    aggregation key of the file's records, no key twice, in the order in
    which the keys first occur among the lines; this is the order in which
    the events are built and sent. *)
Theorem aggregation_key_order : forall env key lines a,
  aggregate_lines env key lines [] = Ok a ->
  map fst a = first_occurrences [] (map ev_aggregation_key (records env key lines)) /\
  NoDup (map fst a).
Proof.
  intros env key lines a H. rewrite (aggregate_keys env key lines [] a H). simpl.
  split; [reflexivity|]. apply first_occurrences_nodup.
Qed.

End KeyOrderExtra.

Module TierExtra.
Import Scanner Classifier ParserProofs.

(** [process_log_line] with the scanner's classifier: a line yields a record
    only when its client address (field 6) parses, and the record's tier is
    then EGRESS-REGION when a prefix of the first tree holds the address,
    else EGRESS-INTERREGION when one of the second tree does, else
    EGRESS-INTERNET; a line whose address does not parse yields no record
    (the ValueError of the lookup is caught). *)
Theorem process_log_line_tier : forall parse_addr trees uuid5 line key ev,
  process_log_line (classify parse_addr trees) uuid5 line key = Ok (Some ev) ->
  exists ip a,
    nth_error (split_on TAB line) 6 = Some ip /\ parse_addr ip = Some a /\
    ev_sku ev = sku_value (if existsb (fun c => cidr_match c a) (fst trees) then REGION
                           else if existsb (fun c => cidr_match c a) (snd trees) then INTERREGION
                           else INTERNET).
Proof.
  intros parse_addr trees uuid5 line key ev H.
  apply process_log_line_some, body_some in H.
  destruct H as (date & t & raw & n & ip & ws & sku & _ & _ & _ & _ & E6 & _ & Hc & ->).
  simpl. exists ip.
  unfold classify, tree_contains, of_option, bind in Hc.
  destruct (parse_addr ip) as [a|]; [|discriminate Hc].
  exists a. split; [exact E6|]. split; [reflexivity|].
  destruct (existsb (fun c => cidr_match c a) (fst trees)); [injection Hc as <-; reflexivity|].
  destruct (existsb (fun c => cidr_match c a) (snd trees)); injection Hc as <-; reflexivity.
Qed.

End TierExtra.

Module EmitWitness.
Import Scanner Concrete ExtraConcrete EmitProofs EmitExtra KeyOrderExtra TierExtra.
Local Open Scope string_scope.

Lemma process_log_file_emission_witness :
  fst (process_log_file (three_line_env refuse_ws2) "f.log") = Ok false /\
  List.length (snd (process_log_file (three_line_env refuse_ws2) "f.log")) = 1%nat /\
  exists evs,
    Forall2 (fun kg be => make_event (three_line_env refuse_ws2) (fst kg) (snd kg) = Ok be)
      three_line_agg evs /\
    ((forall be, In be evs -> send (three_line_env refuse_ws2) be = Ok tt) ->
       process_log_file (three_line_env refuse_ws2) "f.log" = (Ok true, evs)) /\
    (forall pre be post e, evs = (pre ++ be :: post)%list ->
       (forall x, In x pre -> send (three_line_env refuse_ws2) x = Ok tt) ->
       send (three_line_env refuse_ws2) be = Raise e ->
       process_log_file (three_line_env refuse_ws2) "f.log" = (Ok false, pre)) /\
    (exists b sent, process_log_file (three_line_env refuse_ws2) "f.log" = (Ok b, sent)).
Proof.
  split; [vm_compute; reflexivity|]. split; [vm_compute; reflexivity|].
  apply (process_log_file_emission (three_line_env refuse_ws2) "f.log" three_line_log).
  - reflexivity.
  - discriminate.
  - vm_compute. reflexivity.
  - intros kg Hkg. vm_compute in Hkg.
    destruct Hkg as [<-|[<-|[]]]; eexists; vm_compute; reflexivity.
Defined.

Lemma process_log_file_overflow_witness :
  fst (process_log_file overflow_env "f.log") = Raise OverflowError /\
  exists evs,
    Forall2 (fun kg be => make_event overflow_env (fst kg) (snd kg) = Ok be)
      (firstn 1 overflow_agg) evs /\
    ((forall be, In be evs -> send overflow_env be = Ok tt) ->
     process_log_file overflow_env "f.log" = (Raise OverflowError, evs)).
Proof.
  split; [vm_compute; reflexivity|].
  apply (process_log_file_overflow overflow_env "f.log" overflow_log overflow_agg
           (firstn 1 overflow_agg) (fst (nth 1 overflow_agg (""%string, empty_group)))
           (snd (nth 1 overflow_agg (""%string, empty_group))) []).
  - reflexivity.
  - intros H. vm_compute in H. discriminate H.
  - vm_compute. reflexivity.
  - vm_compute. reflexivity.
  - vm_compute. reflexivity.
  - intros kg Hkg. vm_compute in Hkg.
    destruct Hkg as [<-|[]]; eexists; vm_compute; reflexivity.
Defined.

Lemma aggregation_key_order_witness :
  map fst three_line_agg = ["f.log-ws1-EGRESS-REGION"; "f.log-ws2-EGRESS-REGION"] /\
  map fst three_line_agg =
    ExtraVocab.first_occurrences []
      (map ev_aggregation_key (records (three_line_env accept_all) "f.log" (splitlines three_line_log))) /\
  NoDup (map fst three_line_agg).
Proof.
  split; [vm_compute; reflexivity|].
  apply (aggregation_key_order (three_line_env accept_all) "f.log" (splitlines three_line_log)).
  vm_compute. reflexivity.
Defined.

Lemma process_log_line_tier_witness :
  ev_sku region_line_record = "EGRESS-REGION" /\
  process_log_line (Classifier.classify parse_addr_v4 ranges_trees) tag_uuid
    (log_line_ip "999.1.1.1") "f.log" = Ok None /\
  exists ip a,
    nth_error (split_on TAB (log_line_ip "10.1.2.3")) 6 = Some ip /\ parse_addr_v4 ip = Some a /\
    ev_sku region_line_record =
      sku_value (if existsb (fun c => Classifier.cidr_match c a) (fst ranges_trees) then REGION
                 else if existsb (fun c => Classifier.cidr_match c a) (snd ranges_trees)
                      then INTERREGION
                 else INTERNET).
Proof.
  split; [reflexivity|]. split; [vm_compute; reflexivity|].
  apply (process_log_line_tier parse_addr_v4 ranges_trees tag_uuid (log_line_ip "10.1.2.3") "f.log").
  vm_compute. reflexivity.
Defined.

End EmitWitness.

Module RerunProofs.
Import Scanner State Pipeline ExtraVocab PersistProofs SetProofs RunProofs.

Lemma run_candidates cfg env bucket f :
  candidates (run cfg env bucket f) =
  match list_log_files cfg bucket f with
  | Ok files => match enter f with
                | Ok p => filter (fun k => negb (already_scanned k p)) files
                | Raise _ => []
                end
  | Raise _ => []
  end.
Proof.
  unfold run. destruct (list_log_files cfg bucket f) as [files|e]; [|reflexivity].
  destruct (with_state f (run_body env files)). reflexivity.
Qed.

Lemma run_state_after cfg env bucket f s0 files :
  enter f = Ok s0 -> list_log_files cfg bucket f = Ok files ->
  let cands := filter (fun k => negb (already_scanned k s0)) files in
  candidates (run cfg env bucket f) = cands /\
  outcome (run cfg env bucket f) = fst (exec (process_loop env cands) s0) /\
  state_after (run cfg env bucket f) = exit_file (snd (exec (process_loop env cands) s0)).
Proof.
  intros He Hl cands.
  destruct (filter_new_exec files (process_loop env) s0) as [Ex _]. fold cands in Ex.
  unfold run. rewrite Hl. unfold with_state. rewrite He.
  unfold run_body. rewrite Ex. fold cands.
  destruct (exec (process_loop env cands) s0). split; [|split]; reflexivity.
Qed.

Lemma scanned_in k p : In (JStr k) p -> already_scanned k p = true.
Proof.
  intros H. unfold already_scanned. apply existsb_exists. exists (JStr k).
  split; [exact H|]. simpl. apply String.eqb_refl.
Qed.

Lemma scanned_elem k p : already_scanned k p = true -> In (JStr k) p.
Proof.
  unfold already_scanned. intros H. apply existsb_exists in H.
  destruct H as (x & Hx & Heq). rewrite (py_eq_str _ _ Heq) in Hx. exact Hx.
Qed.

End RerunProofs.

Module RerunExtra.
Import Scanner State Pipeline PersistProofs SetProofs RunProofs RerunProofs.

(** Two runs in a row: after a run whose listing and [__enter__] succeed, a
    later run on the state file it wrote (with any configuration, object
    store or producer) never takes as a candidate a key the first run's
    state already held, nor, when the first run finished normally, a key it
    processed with True. *)
Theorem rerun_skips_done : forall cfg env bucket f s0 files cfg' env' bucket' k,
  enter f = Ok s0 ->
  list_log_files cfg bucket f = Ok files ->
  let r1 := run cfg env bucket f in
  (already_scanned k s0 = true \/
   (outcome r1 = Ok tt /\ In k (candidates r1) /\ fst (process_log_file env k) = Ok true)) ->
  ~ In k (candidates (run cfg' env' bucket' (state_after r1))).
Proof.
  intros cfg env bucket f s0 files cfg' env' bucket' k He Hl r1 Hk.
  destruct (run_state_after cfg env bucket f s0 files He Hl) as (Hc & Ho & Hs).
  set (cands := filter (fun k => negb (already_scanned k s0)) files) in *.
  fold r1 in Hc, Ho, Hs.
  set (final := snd (exec (process_loop env cands) s0)) in *.
  destruct (exec_spec (process_loop env cands) s0) as (Keep & Mark & _). fold final in Keep, Mark.
  assert (Hin : In (JStr k) final).
  { destruct Hk as [Hk|(Hok & Hk & Ht)].
    - apply Keep. apply scanned_elem. exact Hk.
    - apply Mark. rewrite Ho in Hok. rewrite Hc in Hk.
      exact (loop_marks_all _ _ _ Hok k Hk Ht). }
  destruct (enter_set f s0 He) as [Hd Hh].
  destruct (exec_set (process_loop env cands) s0 Hd Hh) as [Hd' Hh']. fold final in Hd', Hh'.
  rewrite run_candidates, Hs, enter_exit_file, (py_set_id final Hd' Hh').
  destruct (list_log_files cfg' bucket' (exit_file final)) as [files'|e]; [|intros []].
  intros H. apply filter_In in H. destruct H as [_ H].
  rewrite (scanned_in k final Hin) in H. discriminate H.
Qed.

End RerunExtra.

Module RerunWitness.
Import Scanner State Pipeline Concrete RerunExtra.
Local Open Scope string_scope.

Lemma rerun_skips_done_witness :
  candidates (run cfg0 (test_env store_ab tag_uuid accept_all) bucket_ab SMissing) = bucket_ab /\
  ~ In "a.log"
      (candidates (run cfg0 (test_env store_ab tag_uuid accept_all) ("a.log" :: bucket_ab)
         (state_after (run cfg0 (test_env store_ab tag_uuid accept_all) bucket_ab SMissing)))).
Proof.
  split; [vm_compute; reflexivity|].
  apply (rerun_skips_done cfg0 (test_env store_ab tag_uuid accept_all) bucket_ab SMissing []
           bucket_ab cfg0 (test_env store_ab tag_uuid accept_all) ("a.log" :: bucket_ab) "a.log").
  - reflexivity.
  - vm_compute. reflexivity.
  - right. split; [vm_compute; reflexivity|]. split; [vm_compute; left; reflexivity|].
    vm_compute. reflexivity.
Defined.

End RerunWitness.
